(** * Backtester of the MACD trading bot: a shallow embedding

    This development embeds [Backtester.py] (the grid search over stop and
    profit ratios, the forward walk of every entry signal, and the
    bookkeeping of the tracked instruments) together with the one method of
    [StockContainer.py] that drives [Backtester.add_stock].

    Conventions.
    - Python floats (closing prices, EMA values, ratios, money) are embedded
      as exact rationals [Q]; comparisons are the boolean tests of [QArith].
      Rounding error and NaN are outside this model.
    - Python ints (the win counter, list lengths, list indices) are [Z].
    - A [MACD_Strategy] object is a reference (a [nat]) into a heap; lists of
      strategies are lists of references, so that two lists holding the same
      object see each other's mutations.
    - A Python exception is a value of [exn]; a method that raises returns
      the exception together with the state it had reached. *)

From Stdlib Require Import String Ascii List ZArith QArith Bool Lia Arith.
From Stdlib Require Import Lqa.
Import ListNotations.

Local Open Scope Q_scope.

(** ** Python runtime: exceptions, results, list primitives *)

Inductive exn_class : Type :=
| ZeroDivisionError
| IndexError
| ValueError
| UnboundLocalError.

(** An exception object: its class and [str(e)]. *)
Record exn : Type := mkExn {
  class_of : exn_class;
  exn_message : string
}.

(** The exceptions the interpreter itself raises in this code. The text of
    the last one is that of CPython up to 3.10; later versions word it
    differently. *)
Definition division_by_zero : exn :=
  mkExn ZeroDivisionError "division by zero".
Definition list_index_out_of_range : exn :=
  mkExn IndexError "list index out of range".
Definition pop_from_empty_list : exn :=
  mkExn IndexError "pop from empty list".
Definition pop_index_out_of_range : exn :=
  mkExn IndexError "pop index out of range".
Definition positional_indexer_out_of_bounds : exn :=
  mkExn IndexError "single positional indexer is out-of-bounds".
Definition remove_not_in_list : exn :=
  mkExn ValueError "list.remove(x): x not in list".
Definition unbound_local (name : string) : exn :=
  mkExn UnboundLocalError
    ("local variable '" ++ name ++ "' referenced before assignment").

(** Result of a local computation: a value, an exception, or the loop budget
    of the model exhausted (shown below never to happen). *)
Inductive res (A : Type) : Type :=
| Ok (a : A)
| Raise (e : exn)
| OutOfFuel.

Arguments Ok {A} a.
Arguments Raise {A} e.
Arguments OutOfFuel {A}.

Definition bind {A B : Type} (m : res A) (k : A -> res B) : res B :=
  match m with
  | Ok a => k a
  | Raise e => Raise e
  | OutOfFuel => OutOfFuel
  end.

Notation "x <- m ;; k" := (bind m (fun x => k))
  (at level 61, m at next level, right associativity).

(** Result of a method call on a mutable object: the state after a normal
    return, or the exception with the state reached when it was raised. *)
Inductive outcome (S : Type) : Type :=
| Return (s : S)
| Raised (e : exn) (s : S)
| Diverged.

Arguments Return {S} s.
Arguments Raised {S} e s.
Arguments Diverged {S}.

(** [x > y] and [x >= y] on floats. *)
Definition Qgtb (x y : Q) : bool := negb (Qle_bool x y).
Definition Qgeb (x y : Q) : bool := Qle_bool y x.

(** [a / b] on two Python ints: true division, which raises on a zero
    divisor. *)
Definition py_truediv (a b : Z) : res Q :=
  if Z.eqb b 0 then Raise division_by_zero
  else Ok (inject_Z a / inject_Z b).

(** [a / b] on two Python floats: it raises on a zero divisor as well. *)
Definition float_division_by_zero : exn :=
  mkExn ZeroDivisionError "float division by zero".

Definition py_float_div (a b : Q) : res Q :=
  if Qeq_bool b 0 then Raise float_division_by_zero else Ok (a / b).

(** [l[-1]]. *)
Definition py_last {A : Type} (l : list A) : res A :=
  match rev l with
  | [] => Raise list_index_out_of_range
  | x :: _ => Ok x
  end.

Fixpoint delete_at {A : Type} (i : nat) (l : list A) : list A :=
  match l, i with
  | [], _ => []
  | _ :: l', O => l'
  | x :: l', S j => x :: delete_at j l'
  end.

(** [l.pop(index)]: a negative index counts from the end, an index outside
    [-len(l) .. len(l)-1] raises; the result is the list left behind. *)
Definition py_pop {A : Type} (l : list A) (index : Z) : res (list A) :=
  let n := Z.of_nat (length l) in
  if (0 <=? index)%Z && (index <? n)%Z then Ok (delete_at (Z.to_nat index) l)
  else if (- n <=? index)%Z && (index <? 0)%Z
       then Ok (delete_at (Z.to_nat (index + n)) l)
       else Raise (match l with
                   | [] => pop_from_empty_list
                   | _ :: _ => pop_index_out_of_range
                   end).

(** [l.remove(x)] on a list of object references: the first occurrence of
    the object goes; an absent object raises. *)
Fixpoint py_remove (x : nat) (l : list nat) : res (list nat) :=
  match l with
  | [] => Raise remove_not_in_list
  | y :: l' =>
      if Nat.eqb y x then Ok l'
      else l'' <- py_remove x l' ;; Ok (y :: l'')
  end.

(** [l[i]] for an index produced by [range(len(...))]. *)
Definition py_getitem {A : Type} (l : list A) (i : nat) : res A :=
  match nth_error l i with
  | Some x => Ok x
  | None => Raise list_index_out_of_range
  end.

(** [l.remove(x)] and [l.index(x)] on a list of strings. *)
Fixpoint py_remove_str (x : string) (l : list string) : res (list string) :=
  match l with
  | [] => Raise remove_not_in_list
  | y :: l' =>
      if String.eqb y x then Ok l'
      else l'' <- py_remove_str x l' ;; Ok (y :: l'')
  end.

Definition not_in_list (x : string) : exn :=
  mkExn ValueError ("'" ++ x ++ "' is not in list").

Fixpoint py_index_str (x : string) (l : list string) : res nat :=
  match l with
  | [] => Raise (not_in_list x)
  | y :: l' =>
      if String.eqb y x then Ok O
      else i <- py_index_str x l' ;; Ok (S i)
  end.

(** ** The data frame returned by [MACD_Strategy.get_data] *)

(** One row of the frame, with the three columns the backtester reads.
    [Long_Position] is the difference of a 0/1 column: [None] stands for the
    NaN that [diff()] leaves in the first row. *)
Record Bar : Type := mkBar {
  Close : Q;
  EMA : Q;
  Long_Position : option Q
}.

Definition DataFrame : Type := list Bar.

(** [stock_data['Long_Position'] == 1], row by row (NaN compares false). *)
Definition long_position_is_one (b : Bar) : bool :=
  match Long_Position b with
  | Some v => Qeq_bool v 1
  | None => false
  end.

(** [stock_data.loc[mask].index] over the default integer index: the
    positions of the rows selected by the mask, in increasing order. *)
Fixpoint index_where (mask : Bar -> bool) (start : nat) (rows : DataFrame)
  : list nat :=
  match rows with
  | [] => []
  | b :: rows' =>
      if mask b then start :: index_where mask (S start) rows'
      else index_where mask (S start) rows'
  end.

Definition signals_of (stock_data : DataFrame) : list nat :=
  index_where long_position_is_one 0 stock_data.

(** [column.iloc[i]]. *)
Definition iloc (stock_data : DataFrame) (i : nat) : res Bar :=
  match nth_error stock_data i with
  | Some b => Ok b
  | None => Raise positional_indexer_out_of_bounds
  end.

(** ** [MACD_Strategy] objects *)

Record MACD_Strategy : Type := mkStrategy {
  symbol : string;
  data : DataFrame;          (* what [get_data()] returns *)
  ratio : Q;
  stop_loss_percentage : Q;
  winrate : Q
}.

(** The constructor's defaults: 1.5, 0.95 and 1. *)
Definition new_MACD_Strategy (sym : string) (frame : DataFrame)
  : MACD_Strategy :=
  mkStrategy sym frame 1.5 0.95 1.

Definition ref : Type := nat.
Definition Heap : Type := ref -> MACD_Strategy.

Definition heap_update (h : Heap) (r : ref) (o : MACD_Strategy) : Heap :=
  fun r' => if Nat.eqb r' r then o else h r'.

Definition set_profit_ratio (h : Heap) (r : ref) (v : Q) : Heap :=
  let o := h r in
  heap_update h r
    (mkStrategy (symbol o) (data o) v (stop_loss_percentage o) (winrate o)).

Definition set_stop_loss_ratio (h : Heap) (r : ref) (v : Q) : Heap :=
  let o := h r in
  heap_update h r (mkStrategy (symbol o) (data o) (ratio o) v (winrate o)).

Definition set_winrate (h : Heap) (r : ref) (v : Q) : Heap :=
  let o := h r in
  heap_update h r
    (mkStrategy (symbol o) (data o) (ratio o) (stop_loss_percentage o) v).

(** ** [class Backtester] *)

Module Backtester.

Record t : Type := mk {
  stocks : list ref;
  profit_ratios : list Q;
  stop_ratios : list Q;
  optimal_profit_ratio : list Q;
  optimal_risk_ratio : list Q;
  winrates : list Q;
  money_made : list Q;
  remove_stocks : list ref
}.

(** [__init__]: the two fixed grids, empty outcome lists. *)
Definition init (stocks0 : list ref) : t :=
  mk stocks0
     [1.25; 1.5; 1.75; 2; 2.25; 2.5; 2.75; 3]
     [0.95; 0.96; 0.97; 0.98; 0.99; 1]
     [] [] [] [] [].

Definition get_stop_loss (ratio EMA : Q) : Q := ratio * EMA.

Definition get_take_profit (ratio stop_loss : Q) : Q := ratio * stop_loss.

(** The [while moving_signal != len(stock_data)] loop of one signal, on the
    pair [(current_wins, current_money)]. One unit of [fuel] is one test of
    the loop condition. *)
Fixpoint while_loop (fuel : nat) (stock_data : DataFrame)
    (take_profit stop_loss money_lost : Q) (moving_signal : nat)
    (st : Z * Q) : res (Z * Q) :=
  match fuel with
  | O => OutOfFuel
  | S fuel' =>
      if Nat.eqb moving_signal (length stock_data) then Ok st
      else
        bar <- iloc stock_data moving_signal ;;
        if Qgeb (Close bar) take_profit
        then Ok ((fst st + 1)%Z, snd st + take_profit)
        else if Qle_bool (Close bar) stop_loss
             then Ok (fst st, snd st - money_lost)
             else while_loop fuel' stock_data take_profit stop_loss money_lost
                    (moving_signal + 1) st
  end.

(** Body of [for signal in signals]. *)
Definition signal_body (stock_data : DataFrame) (stop profit : Q)
    (st : Z * Q) (signal : nat) : res (Z * Q) :=
  bar <- iloc stock_data signal ;;
  let stop_loss := get_stop_loss stop (EMA bar) in
  let money_lost := Close bar - stop_loss in
  let take_profit := get_take_profit profit stop_loss in
  while_loop (S (length stock_data)) stock_data take_profit stop_loss
    money_lost signal st.

Fixpoint for_signals (stock_data : DataFrame) (stop profit : Q)
    (signals : list nat) (st : Z * Q) : res (Z * Q) :=
  match signals with
  | [] => Ok st
  | signal :: rest =>
      st' <- signal_body stock_data stop profit st signal ;;
      for_signals stock_data stop profit rest st'
  end.

(** One pass of the inner loop body up to [accuracy]: the pair
    [(accuracy, current_money)] of the trial. *)
Definition trial (stock_data : DataFrame) (signals : list nat)
    (stop profit : Q) : res (Q * Q) :=
  st <- for_signals stock_data stop profit signals (0%Z, 0) ;;
  accuracy <- py_truediv (fst st) (Z.of_nat (length signals)) ;;
  Ok (accuracy, snd st).

(** The four locals that hold the running best; the two ratios are unbound
    until the first replacement. *)
Record best : Type := mkBest {
  greatest_accuracy : Q;
  greatest_money : Q;
  best_profit_ratio : option Q;
  best_stop_ratio : option Q
}.

Definition best0 : best := mkBest 0 0 None None.

Fixpoint for_profit (stock_data : DataFrame) (signals : list nat) (stop : Q)
    (profits : list Q) (b : best) : res best :=
  match profits with
  | [] => Ok b
  | profit :: rest =>
      r <- trial stock_data signals stop profit ;;
      let accuracy := fst r in
      let current_money := snd r in
      if Qgtb accuracy (greatest_accuracy b)
         || Qgeb current_money (greatest_money b)
      then for_profit stock_data signals stop rest
             (mkBest accuracy current_money (Some profit) (Some stop))
      else for_profit stock_data signals stop rest b
  end.

Fixpoint for_stop (stock_data : DataFrame) (signals : list nat)
    (profits stops : list Q) (b : best) : res best :=
  match stops with
  | [] => Ok b
  | stop :: rest =>
      b' <- for_profit stock_data signals stop profits b ;;
      for_stop stock_data signals profits rest b'
  end.

(** Lines 62-103 of [add_data]: the locals after the two nested loops. *)
Definition grid_search (self : t) (stock_data : DataFrame) : res best :=
  let signals := signals_of stock_data in
  for_stop stock_data signals (profit_ratios self) (stop_ratios self) best0.

Definition append_outcome (self : t) (p s a m : Q) : t :=
  mk (stocks self) (profit_ratios self) (stop_ratios self)
     (optimal_profit_ratio self ++ [p])
     (optimal_risk_ratio self ++ [s])
     (winrates self ++ [a])
     (money_made self ++ [m])
     (remove_stocks self).

Definition append_remove (self : t) (stock : ref) : t :=
  mk (stocks self) (profit_ratios self) (stop_ratios self)
     (optimal_profit_ratio self) (optimal_risk_ratio self)
     (winrates self) (money_made self)
     (remove_stocks self ++ [stock]).

Definition add_data (self : t) (h : Heap) (stock : ref) : outcome t :=
  let stock_data := data (h stock) in
  match grid_search self stock_data with
  | OutOfFuel => Diverged
  | Raise e => Raised e self
  | Ok b =>
      if negb (Qeq_bool (greatest_accuracy b) 0)
      then match best_profit_ratio b, best_stop_ratio b with
           | Some p, Some s =>
               Return (append_outcome self p s (greatest_accuracy b)
                         (greatest_money b))
           | None, _ => Raised (unbound_local "best_profit_ratio") self
           | Some p, None =>
               Raised (unbound_local "best_stop_ratio")
                 (mk (stocks self) (profit_ratios self) (stop_ratios self)
                     (optimal_profit_ratio self ++ [p])
                     (optimal_risk_ratio self) (winrates self)
                     (money_made self) (remove_stocks self))
           end
      else Return (append_remove self stock)
  end.

(** The assignments that open [execute]. *)
Definition clear (self : t) : t :=
  mk (stocks self) (profit_ratios self) (stop_ratios self) [] [] [] [] [].

Definition set_stocks (self : t) (l : list ref) : t :=
  mk l (profit_ratios self) (stop_ratios self)
     (optimal_profit_ratio self) (optimal_risk_ratio self)
     (winrates self) (money_made self) (remove_stocks self).

(** [for stock in self.stocks: self.add_data(stock)]; [add_data] never
    touches [self.stocks], so the loop runs over the list as it stood. *)
Fixpoint for_stocks (h : Heap) (todo : list ref) (self : t) : outcome t :=
  match todo with
  | [] => Return self
  | stock :: rest =>
      match add_data self h stock with
      | Return self' => for_stocks h rest self'
      | Raised e self' => Raised e self'
      | Diverged => Diverged
      end
  end.

(** [for remove in self.remove_stocks: self.stocks.remove(remove)]. *)
Fixpoint for_removes (todo : list ref) (self : t) : outcome t :=
  match todo with
  | [] => Return self
  | remove :: rest =>
      match py_remove remove (stocks self) with
      | Ok l => for_removes rest (set_stocks self l)
      | Raise e => Raised e self
      | OutOfFuel => Diverged
      end
  end.

Definition execute (self : t) (h : Heap) : outcome t :=
  let self0 := clear self in
  match for_stocks h (stocks self0) self0 with
  | Return self1 => for_removes (remove_stocks self1) self1
  | Raised e self1 => Raised e self1
  | Diverged => Diverged
  end.

(** [add_stock]: the three setter calls go to [self.stocks[-1]] with the
    last entry of each outcome list; in each call the receiver is evaluated
    before the argument. *)
Definition add_stock (self : t) (h : Heap) (stock : ref)
  : outcome (t * Heap) :=
  match add_data self h stock with
  | Diverged => Diverged
  | Raised e self1 => Raised e (self1, h)
  | Return self1 =>
      let step (h0 : Heap) (values : list Q)
               (setter : Heap -> ref -> Q -> Heap) : res Heap :=
        target <- py_last (stocks self1) ;;
        v <- py_last values ;;
        Ok (setter h0 target v) in
      match step h (optimal_profit_ratio self1) set_profit_ratio with
      | OutOfFuel => Diverged
      | Raise e => Raised e (self1, h)
      | Ok h1 =>
          match step h1 (optimal_risk_ratio self1) set_stop_loss_ratio with
          | OutOfFuel => Diverged
          | Raise e => Raised e (self1, h1)
          | Ok h2 =>
              match step h2 (winrates self1) set_winrate with
              | OutOfFuel => Diverged
              | Raise e => Raised e (self1, h2)
              | Ok h3 => Return (self1, h3)
              end
          end
      end
  end.

(** [remove_stock]: four [pop(index)] in the order of the source; a pop
    that raises leaves the earlier ones done. *)
Definition remove_stock (self : t) (index : Z) : outcome t :=
  match py_pop (winrates self) index with
  | OutOfFuel => Diverged
  | Raise e => Raised e self
  | Ok w =>
      let self1 := mk (stocks self) (profit_ratios self) (stop_ratios self)
                      (optimal_profit_ratio self) (optimal_risk_ratio self)
                      w (money_made self) (remove_stocks self) in
      match py_pop (optimal_profit_ratio self) index with
      | OutOfFuel => Diverged
      | Raise e => Raised e self1
      | Ok p =>
          let self2 := mk (stocks self) (profit_ratios self)
                          (stop_ratios self) p (optimal_risk_ratio self)
                          w (money_made self) (remove_stocks self) in
          match py_pop (optimal_risk_ratio self) index with
          | OutOfFuel => Diverged
          | Raise e => Raised e self2
          | Ok r =>
              let self3 := mk (stocks self) (profit_ratios self)
                              (stop_ratios self) p r
                              w (money_made self) (remove_stocks self) in
              match py_pop (money_made self) index with
              | OutOfFuel => Diverged
              | Raise e => Raised e self3
              | Ok m =>
                  Return (mk (stocks self) (profit_ratios self)
                             (stop_ratios self) p r w m (remove_stocks self))
              end
          end
      end
  end.

(** The body of the loop of [set_ratios] for one index: three setter calls,
    each evaluating [self.stocks[i]] before the outcome entry. *)
Definition set_ratios_body (self : t) (h : Heap) (i : nat) : outcome Heap :=
  let step (h0 : Heap) (values : list Q)
           (setter : Heap -> ref -> Q -> Heap) : res Heap :=
    target <- py_getitem (stocks self) i ;;
    v <- py_getitem values i ;;
    Ok (setter h0 target v) in
  match step h (optimal_profit_ratio self) set_profit_ratio with
  | OutOfFuel => Diverged
  | Raise e => Raised e h
  | Ok h1 =>
      match step h1 (optimal_risk_ratio self) set_stop_loss_ratio with
      | OutOfFuel => Diverged
      | Raise e => Raised e h1
      | Ok h2 =>
          match step h2 (winrates self) set_winrate with
          | OutOfFuel => Diverged
          | Raise e => Raised e h2
          | Ok h3 => Return h3
          end
      end
  end.

Fixpoint set_ratios_loop (self : t) (indices : list nat) (h : Heap)
  : outcome Heap :=
  match indices with
  | [] => Return h
  | i :: rest =>
      match set_ratios_body self h i with
      | Return h' => set_ratios_loop self rest h'
      | Raised e h' => Raised e h'
      | Diverged => Diverged
      end
  end.

(** [set_ratios]: nothing but a message when no outcome is recorded,
    otherwise the loop over [range(len(self.stocks))]. *)
Definition set_ratios (self : t) (h : Heap) : outcome Heap :=
  if Nat.eqb (length (optimal_profit_ratio self)) 0 then Return h
  else set_ratios_loop self (seq 0 (length (stocks self))) h.

End Backtester.

(** ** [StockContainer.add_stock], the caller of [Backtester.add_stock] *)

Module StockContainer.

(** [MACD_objects] and [backtester.stocks] are one and the same list object
    (the constructor hands the list to [Backtester]), so the container keeps
    no second copy: [MACD_objects] is [Backtester.stocks (backtester self)]. *)
Record t : Type := mk {
  stocks : list string;
  backtester : Backtester.t
}.

Definition MACD_objects (self : t) : list ref :=
  Backtester.stocks (backtester self).

(** The world the container lives in: the heap of strategy objects, the
    next free reference, and the frame the account delivers per symbol. *)
Record World : Type := mkWorld {
  heap : Heap;
  next : ref;
  account : string -> DataFrame
}.

Definition add_stock (self : t) (w : World) (stock : string)
  : outcome (t * World) :=
  if existsb (String.eqb stock) (stocks self) then Return (self, w)
  else
    let obj := next w in
    let h1 := heap_update (heap w) obj
                (new_MACD_Strategy stock (account w stock)) in
    let bt1 := Backtester.set_stocks (backtester self)
                 (MACD_objects self ++ [obj]) in
    let self1 := mk (stocks self ++ [stock]) bt1 in
    match py_last (MACD_objects self1) with
    | OutOfFuel => Diverged
    | Raise e => Raised e (self1, mkWorld h1 (S obj) (account w))
    | Ok arg =>
        match Backtester.add_stock bt1 h1 arg with
        | Diverged => Diverged
        | Raised e (bt2, h2) =>
            Raised e (mk (stocks self1) bt2, mkWorld h2 (S obj) (account w))
        | Return (bt2, h2) =>
            Return (mk (stocks self1) bt2, mkWorld h2 (S obj) (account w))
        end
    end.

(** [make_MACD_objects]: one new strategy object per symbol, in the order
    of the symbols. *)
Fixpoint make_MACD_objects (symbols : list string) (w : World)
  : list ref * World :=
  match symbols with
  | [] => ([], w)
  | stock :: rest =>
      let obj := next w in
      let w1 := mkWorld
                  (heap_update (heap w) obj
                     (new_MACD_Strategy stock (account w stock)))
                  (S obj) (account w) in
      let (objs, w2) := make_MACD_objects rest w1 in
      (obj :: objs, w2)
  end.

(** [for stock in remove_stocks: self.stocks.remove(stock.symbol)]. *)
Fixpoint remove_symbols (h : Heap) (todo : list ref) (symbols : list string)
  : outcome (list string) :=
  match todo with
  | [] => Return symbols
  | r :: rest =>
      match py_remove_str (symbol (h r)) symbols with
      | Ok l => remove_symbols h rest l
      | Raise e => Raised e symbols
      | OutOfFuel => Diverged
      end
  end.

Definition set_heap (w : World) (h : Heap) : World :=
  mkWorld h (next w) (account w).

(** [execute_backtester]: run the backtester, drop the symbols of the
    instruments it removed, then apply the ratios. *)
Definition execute_backtester (self : t) (w : World) : outcome (t * World) :=
  match Backtester.execute (backtester self) (heap w) with
  | Diverged => Diverged
  | Raised e bt => Raised e (mk (stocks self) bt, w)
  | Return bt =>
      match remove_symbols (heap w) (Backtester.remove_stocks bt)
              (stocks self) with
      | Diverged => Diverged
      | Raised e l => Raised e (mk l bt, w)
      | Return l =>
          match Backtester.set_ratios bt (heap w) with
          | Diverged => Diverged
          | Raised e h' => Raised e (mk l bt, set_heap w h')
          | Return h' => Return (mk l bt, set_heap w h')
          end
      end
  end.

(** [__init__]: the objects, the backtester over the list of objects, and
    the first [execute_backtester]. *)
Definition init (symbols : list string) (w : World) : outcome (t * World) :=
  let (objs, w1) := make_MACD_objects symbols w in
  execute_backtester (mk symbols (Backtester.init objs)) w1.

(** [remove_stock]: the first occurrence of the symbol goes, and with it
    the object at the same index; the backtester's outcome lists are not
    touched. *)
Definition remove_stock (self : t) (stock : string) : outcome t :=
  if existsb (String.eqb stock) (stocks self) then
    match py_index_str stock (stocks self) with
    | OutOfFuel => Diverged
    | Raise e => Raised e self
    | Ok index =>
        match py_remove_str stock (stocks self) with
        | OutOfFuel => Diverged
        | Raise e => Raised e self
        | Ok l =>
            match py_pop (MACD_objects self) (Z.of_nat index) with
            | OutOfFuel => Diverged
            | Raise e => Raised e (mk l (backtester self))
            | Ok objs =>
                Return (mk l (Backtester.set_stocks (backtester self) objs))
            end
        end
    end
  else Return self.

(** Symbols and objects go together: the symbol at an index is the symbol
    of the object at that index. *)
Definition synced (self : t) (h : Heap) : Prop :=
  map (fun r => symbol (h r)) (MACD_objects self) = stocks self.

End StockContainer.

(** ** [MACDStrategy.py]: the frame of [get_data] and the decision of
    [execute] *)

Module MACDStrategy.

(** One row of the frame, with the columns that [get_data] computes with and
    that [execute] and the backtester read (the [dates], [Diff] and constant
    [Signal_Short] columns are written and never read). [MACD] and
    [Signal_line] come from the indicator library and may be NaN ([None]);
    the two position columns are differences, NaN in the first row. *)
Record Row : Type := mkRow {
  Close : Q;
  MACD : option Q;
  Signal_line : option Q;
  EMA : Q;
  Signal_Long : Q;
  Long_Position : option Q;
  Sigial_Short : Q;
  Short_Position : option Q
}.

(** [series.ewm(span=span, adjust=False).mean()]: the first value is kept,
    every later one is [(1 - alpha) * previous + alpha * value] with
    [alpha = 2 / (span + 1)]. *)
Definition alpha (span : Q) : Q := 2 / (span + 1).

Fixpoint ewm_from (a previous : Q) (values : list Q) : list Q :=
  match values with
  | [] => []
  | x :: rest =>
      let y := (1 - a) * previous + a * x in
      y :: ewm_from a y rest
  end.

Definition ewm_mean (span : Q) (values : list Q) : list Q :=
  match values with
  | [] => []
  | x :: rest => x :: ewm_from (alpha span) x rest
  end.

(** [series.diff()]: NaN first, then each value minus the one before. *)
Fixpoint diff_from (previous : Q) (values : list Q) : list (option Q) :=
  match values with
  | [] => []
  | x :: rest => Some (x - previous) :: diff_from x rest
  end.

Definition diff (values : list Q) : list (option Q) :=
  match values with
  | [] => []
  | x :: rest => None :: diff_from x rest
  end.

(** [x < y] on a column that may hold NaN: false as soon as one side is. *)
Definition lt_nan (x y : option Q) : bool :=
  match x, y with
  | Some a, Some b => Qgtb b a
  | _, _ => false
  end.

(** A column assigned from a series of the indicator library is aligned on
    the row index: a row the series does not reach holds NaN. *)
Definition column (series : list (option Q)) (i : nat) : option Q :=
  match nth_error series i with
  | Some v => v
  | None => None
  end.

(** [(MACD < 0) & (MACD > Signal_line) & (Close > EMA)]. *)
Definition long_condition (close ema : Q) (macd signal : option Q) : bool :=
  lt_nan macd (Some 0) && lt_nan signal macd && Qgtb close ema.

(** [(MACD > 0) & (MACD < Signal_line) & (Close < EMA)]. *)
Definition short_condition (close ema : Q) (macd signal : option Q) : bool :=
  lt_nan (Some 0) macd && lt_nan macd signal && Qgtb ema close.

(** [np.where(condition, 1.0, 0.0)]. *)
Definition where_ (condition : bool) : Q := if condition then 1 else 0.

(** [get_data], from the closing prices of the account and the two series
    of the indicator library. *)
Definition get_data (close_prices : list Q)
    (macd_line macd_signal : list (option Q)) : list Row :=
  let rows := seq 0 (length close_prices) in
  let close i := nth i close_prices 0 in
  let ema := ewm_mean 100 close_prices in
  let signal_long :=
    map (fun i => where_ (long_condition (close i) (nth i ema 0)
                            (column macd_line i) (column macd_signal i)))
      rows in
  let long_position := diff signal_long in
  let sigial_short :=
    map (fun i => where_ (short_condition (close i) (nth i ema 0)
                            (column macd_line i) (column macd_signal i)))
      rows in
  let short_position := diff sigial_short in
  map (fun i =>
         mkRow (close i) (column macd_line i) (column macd_signal i)
           (nth i ema 0) (nth i signal_long 0) (nth i long_position None)
           (nth i sigial_short 0) (nth i short_position None))
    rows.

(** What [execute] ends with: the call it makes on the account (with the
    whole [EMA] column as third argument, as in the source) or the message
    it prints. *)
Inductive action : Type :=
| long_stock (sym : string) (qty : Q) (ema : list Q)
    (stop_loss_percentage profit_ratio notional : Q)
| short_detected
| no_signal (sym : string).

(** Truth value of a float in an [if]: zero is false, NaN is true. *)
Definition truthy (x : option Q) : bool :=
  match x with
  | None => true
  | Some v => negb (Qeq_bool v 0)
  end.

(** [column.iloc[-1]]. *)
Definition iloc_last {A : Type} (col : list A) : res A :=
  match rev col with
  | [] => Raise positional_indexer_out_of_bounds
  | x :: _ => Ok x
  end.

(** [execute] of the strategy object [o], given the balance and the latest
    price the account reports and the frame [get_data] returns. *)
Definition execute (o : MACD_Strategy) (balance current_cost : Q)
    (df : list Row) : res action :=
  let notional := balance * 0.1 * winrate o in
  buy_qty <- py_float_div notional current_cost ;;
  long <- iloc_last (map Long_Position df) ;;
  if truthy long
  then Ok (long_stock (symbol o) buy_qty (map EMA df)
             (stop_loss_percentage o) (ratio o) notional)
  else
    short <- iloc_last (map Short_Position df) ;;
    if truthy short then Ok short_detected else Ok (no_signal (symbol o)).

(** The three columns of a row that the backtester reads. *)
Definition to_bar (r : Row) : Bar :=
  mkBar (Close r) (EMA r) (Long_Position r).

(** The long and the short condition at row [i] of the frame built from
    the given prices and series. *)
Definition long_at (close_prices : list Q)
    (macd_line macd_signal : list (option Q)) (i : nat) : bool :=
  long_condition (nth i close_prices 0)
    (nth i (ewm_mean 100 close_prices) 0)
    (column macd_line i) (column macd_signal i).

Definition short_at (close_prices : list Q)
    (macd_line macd_signal : list (option Q)) (i : nat) : bool :=
  short_condition (nth i close_prices 0)
    (nth i (ewm_mean 100 close_prices) 0)
    (column macd_line i) (column macd_signal i).

End MACDStrategy.

(** ** Reference definitions, worded after the specification *)

Module Spec.

(** How the forward walk of one signal ends. *)
Inductive walk_end : Type := Win | Loss | Abandoned.

(** The walk as the specification words it, over the closes from the signal
    step onwards: the target is tested first, both tests are closed. *)
Fixpoint walk_forward (targetLevel stopLevel : Q) (closes : list Q)
  : walk_end :=
  match closes with
  | [] => Abandoned
  | c :: later =>
      if Qle_bool targetLevel c then Win
      else if Qle_bool c stopLevel then Loss
      else walk_forward targetLevel stopLevel later
  end.

(** What a walk contributes to [(winCount, cumulativeProfit)]. *)
Definition contribute (e : walk_end) (targetLevel riskAmount : Q)
    (st : Z * Q) : Z * Q :=
  match e with
  | Win => ((fst st + 1)%Z, snd st + targetLevel)
  | Loss => (fst st, snd st - riskAmount)
  | Abandoned => st
  end.

(** The selection rule: does a trial replace the running best? *)
Definition replaces (b : Backtester.best) (winRate cumulativeProfit : Q)
  : Prop :=
  Backtester.greatest_accuracy b < winRate
  \/ Backtester.greatest_money b <= cumulativeProfit.

(** The full cross-product, stop ratios outermost, both in listed order. *)
Definition cross_product (stopRatios profitRatios : list Q) : list (Q * Q) :=
  flat_map (fun stop => map (fun profit => (stop, profit)) profitRatios)
    stopRatios.

(** The running best after the trial of the pair [sp = (stop, profit)] with
    result [r = (winRate, cumulativeProfit)]. *)
Definition select (b : Backtester.best) (sp : Q * Q) (r : Q * Q)
  : Backtester.best :=
  if Qgtb (fst r) (Backtester.greatest_accuracy b)
     || Qgeb (snd r) (Backtester.greatest_money b)
  then Backtester.mkBest (fst r) (snd r) (Some (snd sp)) (Some (fst sp))
  else b.

(** The grid search as one pass over a list of pairs. *)
Fixpoint search (stock_data : DataFrame) (signals : list nat)
    (pairs : list (Q * Q)) (b : Backtester.best) : res Backtester.best :=
  match pairs with
  | [] => Ok b
  | sp :: rest =>
      r <- Backtester.trial stock_data signals (fst sp) (snd sp) ;;
      search stock_data signals rest (select b sp r)
  end.

End Spec.

(** Whether the grid search of object [r] completes with a nonzero best
    win-rate. *)
Definition viable (self : Backtester.t) (h : Heap) (r : ref) : bool :=
  match Backtester.grid_search self (data (h r)) with
  | Ok b => negb (Qeq_bool (Backtester.greatest_accuracy b) 0)
  | _ => false
  end.

(** The four outcome entries at one index are the result [b] of a search. *)
Definition outcome_of (b : Backtester.best) (p s a m : Q) : Prop :=
  Backtester.best_profit_ratio b = Some p
  /\ Backtester.best_stop_ratio b = Some s
  /\ Backtester.greatest_accuracy b = a
  /\ Backtester.greatest_money b = m.

(** The outcome lists hold, index by index, the search results of the
    objects [rs]. *)
Inductive outcomes_for (self : Backtester.t) (h : Heap)
  : list ref -> list Q -> list Q -> list Q -> list Q -> Prop :=
| outcomes_nil : outcomes_for self h [] [] [] [] []
| outcomes_cons r rs b p ps s ss a accs m ms :
    Backtester.grid_search self (data (h r)) = Ok b ->
    outcome_of b p s a m ->
    outcomes_for self h rs ps ss accs ms ->
    outcomes_for self h (r :: rs) (p :: ps) (s :: ss) (a :: accs) (m :: ms).

(** The three setters on one object. *)
Definition apply_outcome (h : Heap) (r : ref) (p s a : Q) : Heap :=
  set_winrate (set_stop_loss_ratio (set_profit_ratio h r p) r s) r a.

(** The setters on the objects of a list, with the entries of three lists
    at the same positions. *)
Fixpoint apply_all (h : Heap) (rs : list ref) (ps ss accs : list Q) : Heap :=
  match rs, ps, ss, accs with
  | r :: rs', p :: ps', s :: ss', a :: accs' =>
      apply_all (apply_outcome h r p s a) rs' ps' ss' accs'
  | _, _, _, _ => h
  end.

(** The running best is the initial one, or a pair of the grid together with
    the win-rate and money of the trial of that very pair. *)
Definition recorded_from (stock_data : DataFrame) (signals : list nat)
    (stops profits : list Q) (b : Backtester.best) : Prop :=
  b = Backtester.best0
  \/ exists p s,
       Backtester.best_profit_ratio b = Some p
       /\ Backtester.best_stop_ratio b = Some s
       /\ In s stops /\ In p profits
       /\ Backtester.trial stock_data signals s p
          = Ok (Backtester.greatest_accuracy b, Backtester.greatest_money b).

(** Whether the grid search over the frame that the account delivers for a
    symbol completes with a nonzero best win-rate. *)
Definition symbol_viable (account : string -> DataFrame) (sym : string)
  : bool :=
  match Backtester.grid_search (Backtester.init []) (account sym) with
  | Ok b => negb (Qeq_bool (Backtester.greatest_accuracy b) 0)
  | _ => false
  end.

(** The calls a client can make on a [Backtester], and a run of them. *)
Inductive call : Type :=
| AddStock (stock : ref)
| RemoveStock (index : Z)
| Execute.

Definition do_call (c : call) (self : Backtester.t) (h : Heap)
  : outcome (Backtester.t * Heap) :=
  match c with
  | AddStock stock => Backtester.add_stock self h stock
  | RemoveStock index =>
      match Backtester.remove_stock self index with
      | Return self' => Return (self', h)
      | Raised e self' => Raised e (self', h)
      | Diverged => Diverged
      end
  | Execute =>
      match Backtester.execute self h with
      | Return self' => Return (self', h)
      | Raised e self' => Raised e (self', h)
      | Diverged => Diverged
      end
  end.

Fixpoint run_calls (calls : list call) (self : Backtester.t) (h : Heap)
  : outcome (Backtester.t * Heap) :=
  match calls with
  | [] => Return (self, h)
  | c :: rest =>
      match do_call c self h with
      | Return (self', h') => run_calls rest self' h'
      | Raised e s => Raised e s
      | Diverged => Diverged
      end
  end.

(** The four outcome lists all have length [n]. *)
Definition outcome_lengths (self : Backtester.t) (n : nat) : Prop :=
  length (Backtester.optimal_profit_ratio self) = n
  /\ length (Backtester.optimal_risk_ratio self) = n
  /\ length (Backtester.winrates self) = n
  /\ length (Backtester.money_made self) = n.

(** Tracked instruments and outcome lists are index-aligned. *)
Definition aligned (self : Backtester.t) : Prop :=
  outcome_lengths self (length (Backtester.stocks self)).

(** The two ratio locals are bound together, and only the untouched initial
    state has them unbound. *)
Definition bound_or_initial (b : Backtester.best) : Prop :=
  b = Backtester.best0
  \/ exists p s, Backtester.best_profit_ratio b = Some p
                 /\ Backtester.best_stop_ratio b = Some s.

(** The condition the specification asks for on a frame without signals. *)
Definition no_signals_condition (o : outcome Backtester.t) : Prop :=
  exists e self',
    o = Raised e self' /\ exn_message e = "no signals available"%string.

(** ** Sample frames and objects *)

(** One signal at step 1 that reaches every target up to 200 at step 2. *)
Definition frame_win : DataFrame :=
  [mkBar 100 100 None; mkBar 102 100 (Some 1); mkBar 200 100 (Some 0)].

(** One signal at step 1 whose walk meets neither level. *)
Definition frame_never : DataFrame :=
  [mkBar 100 100 None; mkBar 102 100 (Some 1); mkBar 103 100 (Some 0)].

(** One signal at step 1, stopped out at step 2. *)
Definition frame_loss : DataFrame :=
  [mkBar 100 100 None; mkBar 102 100 (Some 1); mkBar 90 100 (Some 0)].

(** No entry signal at all. *)
Definition frame_nosig : DataFrame :=
  [mkBar 100 100 None; mkBar 101 100 (Some 0)].

Definition sample_heap : Heap :=
  fun r =>
    match r with
    | 0%nat => new_MACD_Strategy "AAPL" frame_win
    | 1%nat => new_MACD_Strategy "TSLA" frame_never
    | 2%nat => new_MACD_Strategy "MSFT" frame_nosig
    | _ => new_MACD_Strategy "AMZN" frame_loss
    end.

(** Two signals, at steps 1 and 4: the first reaches every target up to 200,
    the second is stopped out at step 5. *)
Definition frame_half : DataFrame :=
  [mkBar 100 100 None; mkBar 102 100 (Some 1); mkBar 200 100 (Some 0);
   mkBar 99 100 (Some (-1)); mkBar 101 100 (Some 1); mkBar 90 100 (Some 0)].

(** A container that tracks one viable instrument, as its constructor
    leaves it, in a world whose account knows two more symbols. *)
Definition account_frames (sym : string) : DataFrame :=
  if String.eqb sym "AAPL" then frame_half
  else if String.eqb sym "TSLA" then frame_never
  else frame_nosig.

Definition world_AAPL : StockContainer.World :=
  StockContainer.mkWorld (fun _ => new_MACD_Strategy "AAPL" frame_half)
    1%nat account_frames.

Definition container_AAPL : StockContainer.t :=
  StockContainer.mk ["AAPL"%string]
    (Backtester.mk [0%nat]
       (Backtester.profit_ratios (Backtester.init []))
       (Backtester.stop_ratios (Backtester.init []))
       [2] [1] [1 # 2] [199] []).

(** A world without objects, whose account knows the sample symbols. *)
Definition world_empty : StockContainer.World :=
  StockContainer.mkWorld (fun _ => new_MACD_Strategy "" []) 0%nat
    account_frames.


(** * Properties *)

(** ** The forward walk of one signal *)

Lemma skipn_cons_nth_error {A : Type} (l : list A) :
  forall n x, nth_error l n = Some x -> skipn n l = x :: skipn (S n) l.
Proof.
  induction l as [|y l IH]; intros [|n] x H; simpl in H; try discriminate.
  - injection H as ->. reflexivity.
  - rewrite skipn_cons. now apply IH.
Qed.

Lemma iloc_in_range (stock_data : DataFrame) (i : nat) :
  (i < length stock_data)%nat ->
  exists bar, nth_error stock_data i = Some bar /\ iloc stock_data i = Ok bar.
Proof.
  intros Hi. unfold iloc.
  destruct (nth_error stock_data i) as [bar|] eqn:E.
  - now exists bar.
  - apply nth_error_None in E. lia.
Qed.

(** With a budget above the number of remaining rows the loop computes the
    specification's walk over the closes from [moving_signal] onwards. *)
Lemma while_loop_walk_forward (stock_data : DataFrame) (tp sl ml : Q) :
  forall fuel moving_signal st,
    (moving_signal <= length stock_data)%nat ->
    (length stock_data - moving_signal < fuel)%nat ->
    Backtester.while_loop fuel stock_data tp sl ml moving_signal st
    = Ok (Spec.contribute
            (Spec.walk_forward tp sl
               (map Close (skipn moving_signal stock_data)))
            tp ml st).
Proof.
  induction fuel as [|fuel IH]; intros ms st Hle Hfuel; [lia|].
  simpl. destruct (Nat.eqb_spec ms (length stock_data)) as [->|Hne].
  - now rewrite skipn_all.
  - destruct (iloc_in_range stock_data ms) as (bar & Hnth & ->); [lia|].
    rewrite (skipn_cons_nth_error _ _ _ Hnth). simpl. unfold Qgeb.
    destruct (Qle_bool tp (Close bar)); [reflexivity|].
    destruct (Qle_bool (Close bar) sl); [reflexivity|].
    rewrite Nat.add_1_r. apply IH; lia.
Qed.

(** The positions of the selected rows lie inside the frame. *)
Lemma index_where_range (mask : Bar -> bool) (rows : DataFrame) :
  forall start i,
    In i (index_where mask start rows) ->
    (start <= i < start + length rows)%nat.
Proof.
  induction rows as [|b rows IH]; intros start i Hin; simpl in *; [tauto|].
  destruct (mask b).
  - destruct Hin as [<-|Hin]; [lia|]. apply IH in Hin. lia.
  - apply IH in Hin. lia.
Qed.

Lemma signals_of_range (stock_data : DataFrame) (signal : nat) :
  In signal (signals_of stock_data) -> (signal < length stock_data)%nat.
Proof. intros H. apply index_where_range in H. lia. Qed.

(** The body of the signal loop, in the specification's terms. *)
Lemma signal_body_walk_forward (stock_data : DataFrame) (stop profit : Q)
    (signal : nat) (bar : Bar) (st : Z * Q) :
  nth_error stock_data signal = Some bar ->
  let stopLevel := stop * EMA bar in
  let targetLevel := profit * stopLevel in
  let riskAmount := Close bar - stopLevel in
  Backtester.signal_body stock_data stop profit st signal
  = Ok (Spec.contribute
          (Spec.walk_forward targetLevel stopLevel
             (map Close (skipn signal stock_data)))
          targetLevel riskAmount st).
Proof.
  intros Hnth. cbv zeta.
  unfold Backtester.signal_body, iloc. rewrite Hnth. cbn [bind].
  apply while_loop_walk_forward.
  - apply Nat.lt_le_incl, nth_error_Some. congruence.
  - lia.
Qed.

(** One test of the loop condition at a row inside the frame. *)
Lemma while_loop_step (stock_data : DataFrame) (tp sl ml : Q)
    (fuel t : nat) (row : Bar) (acc : Z * Q) :
  nth_error stock_data t = Some row ->
  (tp <= Close row ->
   Backtester.while_loop (S fuel) stock_data tp sl ml t acc
   = Ok ((fst acc + 1)%Z, snd acc + tp))
  /\ (~ tp <= Close row -> Close row <= sl ->
      Backtester.while_loop (S fuel) stock_data tp sl ml t acc
      = Ok (fst acc, snd acc - ml))
  /\ (~ tp <= Close row -> ~ Close row <= sl ->
      Backtester.while_loop (S fuel) stock_data tp sl ml t acc
      = Backtester.while_loop fuel stock_data tp sl ml (t + 1) acc).
Proof.
  intros Hnth.
  assert (Hlt : (t < length stock_data)%nat)
    by (apply nth_error_Some; congruence).
  cbn [Backtester.while_loop].
  destruct (Nat.eqb_spec t (length stock_data)) as [E|_]; [lia|].
  unfold iloc. rewrite Hnth. cbn [bind]. unfold Qgeb.
  destruct (Qle_bool tp (Close row)) eqn:Etp;
    [apply Qle_bool_iff in Etp
    |assert (~ tp <= Close row)
       by (intros C; apply Qle_bool_iff in C; congruence)];
  (destruct (Qle_bool (Close row) sl) eqn:Esl;
    [apply Qle_bool_iff in Esl
    |assert (~ Close row <= sl)
       by (intros C; apply Qle_bool_iff in C; congruence)]);
  repeat split; intros; solve [reflexivity | contradiction].
Qed.

(** The walk of the specification, step by step, on propositions. *)
Lemma walk_forward_abandoned (tp sl : Q) (rows : DataFrame) :
  Forall (fun row => sl < Close row /\ Close row < tp) rows ->
  Spec.walk_forward tp sl (map Close rows) = Spec.Abandoned.
Proof.
  induction 1 as [|row rows [Hsl Htp] _ IH]; simpl; [reflexivity|].
  destruct (Qle_bool tp (Close row)) eqn:E1.
  - apply Qle_bool_iff in E1. exfalso. exact (Qlt_not_le _ _ Htp E1).
  - destruct (Qle_bool (Close row) sl) eqn:E2; [|exact IH].
    apply Qle_bool_iff in E2. exfalso. exact (Qlt_not_le _ _ Hsl E2).
Qed.

Lemma for_signals_app (stock_data : DataFrame) (stop profit : Q)
    (l1 l2 : list nat) :
  forall st,
    Backtester.for_signals stock_data stop profit (l1 ++ l2) st
    = (st' <- Backtester.for_signals stock_data stop profit l1 st ;;
       Backtester.for_signals stock_data stop profit l2 st').
Proof.
  induction l1 as [|s l1 IH]; intros st; simpl; [reflexivity|].
  destruct (Backtester.signal_body stock_data stop profit st s);
    simpl; auto.
Qed.

(** Every signal inside the frame moves the win counter by zero or one. *)
Lemma for_signals_total (stock_data : DataFrame) (stop profit : Q)
    (signals : list nat) :
  Forall (fun s => (s < length stock_data)%nat) signals ->
  forall st, exists wins money,
    Backtester.for_signals stock_data stop profit signals st
    = Ok (wins, money)
    /\ (fst st <= wins <= fst st + Z.of_nat (length signals))%Z.
Proof.
  induction 1 as [|s signals Hs _ IH]; intros st.
  - exists (fst st), (snd st). destruct st; simpl. split; [reflexivity|lia].
  - destruct (iloc_in_range _ _ Hs) as (bar & Hnth & _).
    cbn [Backtester.for_signals].
    rewrite (signal_body_walk_forward _ stop profit _ _ st Hnth).
    cbn [bind].
    match goal with |- context [Spec.contribute ?e ?a ?b st] =>
      destruct (IH (Spec.contribute e a b st)) as (w & m & Hrun & Hb);
      assert (Hfst : (fst st <= fst (Spec.contribute e a b st)
                      <= fst st + 1)%Z)
        by (destruct e; simpl; lia)
    end.
    exists w, m. split; [exact Hrun|].
    rewrite length_cons, Nat2Z.inj_succ. lia.
Qed.

Lemma signals_of_in_range (stock_data : DataFrame) :
  Forall (fun s => (s < length stock_data)%nat) (signals_of stock_data).
Proof. apply Forall_forall. intros s. apply signals_of_range. Qed.

(** A quotient of a count by a positive total that bounds it. *)
Lemma ratio_in_unit_interval (wins total : Z) :
  (0 <= wins <= total)%Z -> (0 < total)%Z ->
  0 <= inject_Z wins / inject_Z total
  /\ inject_Z wins / inject_Z total <= 1.
Proof.
  intros [H0 H1] Hpos.
  assert (Hq : 0 < inject_Z total)
    by (change (inject_Z 0 < inject_Z total); rewrite <- Zlt_Qlt; exact Hpos).
  split.
  - apply Qle_shift_div_l; [exact Hq|].
    rewrite Qmult_0_l. change (inject_Z 0 <= inject_Z wins).
    rewrite <- Zle_Qle. exact H0.
  - apply Qle_shift_div_r; [exact Hq|].
    rewrite Qmult_1_l. rewrite <- Zle_Qle. exact H1.
Qed.

(** C2. For every signal simulated under a pair [(stop, profit)], with
    [stopLevel = stop * EMA[signal]], [targetLevel = profit * stopLevel] and
    [riskAmount = Close[signal] - stopLevel]: the body of the signal loop is
    the specification's forward walk from the signal step, and at every step
    [t] inside the frame the loop records a win with [+targetLevel] when
    [targetLevel <= Close[t]] (tested first), otherwise a loss with
    [-riskAmount] when [Close[t] <= stopLevel], otherwise moves to [t + 1]. *)
Theorem signal_walk_target_then_stop (stock_data : DataFrame)
    (stop profit : Q) (signal : nat) (st : Z * Q) :
  In signal (signals_of stock_data) ->
  exists bar,
    nth_error stock_data signal = Some bar
    /\ let stopLevel := stop * EMA bar in
       let targetLevel := profit * stopLevel in
       let riskAmount := Close bar - stopLevel in
       Backtester.signal_body stock_data stop profit st signal
       = Ok (Spec.contribute
               (Spec.walk_forward targetLevel stopLevel
                  (map Close (skipn signal stock_data)))
               targetLevel riskAmount st)
       /\ forall fuel t row acc,
            nth_error stock_data t = Some row ->
            (targetLevel <= Close row ->
             Backtester.while_loop (S fuel) stock_data targetLevel stopLevel
               riskAmount t acc
             = Ok ((fst acc + 1)%Z, snd acc + targetLevel))
            /\ (~ targetLevel <= Close row -> Close row <= stopLevel ->
                Backtester.while_loop (S fuel) stock_data targetLevel
                  stopLevel riskAmount t acc
                = Ok (fst acc, snd acc - (Close bar - stopLevel)))
            /\ (~ targetLevel <= Close row -> ~ Close row <= stopLevel ->
                Backtester.while_loop (S fuel) stock_data targetLevel
                  stopLevel riskAmount t acc
                = Backtester.while_loop fuel stock_data targetLevel
                    stopLevel riskAmount (t + 1) acc).
Proof.
  intros Hin. apply signals_of_range in Hin.
  destruct (iloc_in_range _ _ Hin) as (bar & Hnth & _).
  exists bar. split; [exact Hnth|]. cbv zeta. split.
  - exact (signal_body_walk_forward _ stop profit _ _ st Hnth).
  - intros fuel t row acc Hrow. now apply while_loop_step.
Qed.

Lemma signal_walk_target_then_stop_witness :
  In 1%nat (signals_of frame_win)
  /\ exists st',
       Backtester.signal_body frame_win 0.95 1.25 (0%Z, 0) 1 = Ok st'.
Proof.
  assert (Hin : In 1%nat (signals_of frame_win)) by (vm_compute; auto).
  split; [exact Hin|].
  destruct (signal_walk_target_then_stop frame_win 0.95 1.25 1 (0%Z, 0) Hin)
    as (bar & _ & Hbody & _).
  eexists. exact Hbody.
Defined.

(** C10. The walk of a signal starts at the signal step itself: when
    [Close[signal]] already meets the target the signal is an immediate win
    with [+targetLevel], whatever rows follow; when it misses the target and
    meets the stop it is an immediate loss (and the target is missed by any
    close at or below the stop as soon as baseline and stop ratio are
    positive and the profit ratio exceeds one). The loop always terminates:
    from any index inside the frame, every budget above the number of
    remaining rows yields the same result. *)
Theorem walk_starts_at_signal_and_terminates (stock_data : DataFrame)
    (stop profit : Q) (signal : nat) (bar : Bar) (st : Z * Q) :
  nth_error stock_data signal = Some bar ->
  let stopLevel := stop * EMA bar in
  let targetLevel := profit * stopLevel in
  let riskAmount := Close bar - stopLevel in
  (targetLevel <= Close bar ->
   forall later : DataFrame,
     Backtester.signal_body (firstn (S signal) stock_data ++ later)
       stop profit st signal
     = Ok ((fst st + 1)%Z, snd st + targetLevel))
  /\ (~ targetLevel <= Close bar -> Close bar <= stopLevel ->
      forall later : DataFrame,
        Backtester.signal_body (firstn (S signal) stock_data ++ later)
          stop profit st signal
        = Ok (fst st, snd st - riskAmount))
  /\ (0 < EMA bar -> 0 < stop -> 1 < profit -> Close bar <= stopLevel ->
      ~ targetLevel <= Close bar)
  /\ (exists st', forall fuel,
        (length stock_data - signal < fuel)%nat ->
        Backtester.while_loop fuel stock_data targetLevel stopLevel
          riskAmount signal st = Ok st').
Proof.
  intros Hnth. cbv zeta.
  assert (Hlt : (signal < length stock_data)%nat)
    by (apply nth_error_Some; congruence).
  assert (Hpre : forall later,
             nth_error (firstn (S signal) stock_data ++ later) signal
             = Some bar).
  { intros later. rewrite nth_error_app1.
    - rewrite nth_error_firstn.
      destruct (Nat.ltb_spec signal (S signal)); [exact Hnth|lia].
    - rewrite length_firstn. lia. }
  repeat split.
  - intros Htp later. unfold Backtester.signal_body, iloc.
    rewrite Hpre. cbn [bind].
    now apply (while_loop_step _ _ _ _ _ signal bar st (Hpre later)).
  - intros Htp Hsl later. unfold Backtester.signal_body, iloc.
    rewrite Hpre. cbn [bind].
    now apply (while_loop_step _ _ _ _ _ signal bar st (Hpre later)).
  - intros Hema Hstop Hprofit Hsl Htp.
    assert (Hpos : 0 < stop * EMA bar)
      by (apply Qmult_lt_0_compat; assumption).
    assert (Hgt : stop * EMA bar < profit * (stop * EMA bar)).
    { setoid_replace (stop * EMA bar) with (1 * (stop * EMA bar)) at 1
        by ring.
      apply Qmult_lt_compat_r; assumption. }
    apply (Qlt_irrefl (stop * EMA bar)).
    eapply Qlt_le_trans; [exact Hgt|].
    eapply Qle_trans; [exact Htp|exact Hsl].
  - eexists. intros fuel Hfuel.
    apply while_loop_walk_forward; lia.
Qed.

Lemma walk_starts_at_signal_and_terminates_witness :
  Backtester.signal_body
    (firstn 2 [mkBar 100 100 None; mkBar 120 100 (Some 1)] ++ frame_loss)
    0.95 1.25 (0%Z, 0) 1
  = Ok (1%Z, 0 + 1.25 * (0.95 * 100))
  /\ Backtester.signal_body
       (firstn 2 [mkBar 100 100 None; mkBar 90 100 (Some 1)] ++ frame_win)
       0.95 1.25 (0%Z, 0) 1
     = Ok (0%Z, 0 - (90 - 0.95 * 100)).
Proof.
  split.
  - refine (proj1 (walk_starts_at_signal_and_terminates
                     [mkBar 100 100 None; mkBar 120 100 (Some 1)] 0.95 1.25
                     1 (mkBar 120 100 (Some 1)) (0%Z, 0) eq_refl)
                  _ frame_loss).
    vm_compute. discriminate.
  - refine (proj1 (proj2 (walk_starts_at_signal_and_terminates
                            [mkBar 100 100 None; mkBar 90 100 (Some 1)]
                            0.95 1.25 1 (mkBar 90 100 (Some 1)) (0%Z, 0)
                            eq_refl))
                  _ _ frame_win).
    + vm_compute. intros H. apply H. reflexivity.
    + vm_compute. discriminate.
Defined.

(** ** One trial: win count, cumulative profit, win-rate *)

(** C3. A signal whose close stays strictly between the stop and the target
    level from the signal step to the end of the frame leaves the win count
    and the cumulative profit as they were, and the trial still divides the
    win count by the number of all signals, this one included. *)
Theorem unresolved_signal_stays_in_denominator (stock_data : DataFrame)
    (stop profit : Q) (before after : list nat) (signal : nat) (bar : Bar) :
  nth_error stock_data signal = Some bar ->
  Forall (fun row => stop * EMA bar < Close row
                     /\ Close row < profit * (stop * EMA bar))
    (skipn signal stock_data) ->
  (forall st,
     Backtester.signal_body stock_data stop profit st signal = Ok st)
  /\ Backtester.trial stock_data (before ++ signal :: after) stop profit
     = (st <- Backtester.for_signals stock_data stop profit
                (before ++ after) (0%Z, 0) ;;
        accuracy <- py_truediv (fst st)
                      (Z.of_nat (length before + 1 + length after)) ;;
        Ok (accuracy, snd st)).
Proof.
  intros Hnth Hmid.
  assert (Hbody : forall st,
             Backtester.signal_body stock_data stop profit st signal = Ok st).
  { intros st. rewrite (signal_body_walk_forward _ _ _ _ _ st Hnth).
    now rewrite (walk_forward_abandoned _ _ _ Hmid). }
  split; [exact Hbody|].
  unfold Backtester.trial.
  rewrite !for_signals_app.
  replace (Z.of_nat (length (before ++ signal :: after)))
    with (Z.of_nat (length before + 1 + length after))
    by (rewrite length_app, length_cons; f_equal; lia).
  destruct (Backtester.for_signals stock_data stop profit before (0%Z, 0))
    as [st1| |]; cbn [bind]; try reflexivity.
  cbn [Backtester.for_signals]. rewrite Hbody. reflexivity.
Qed.

Lemma unresolved_signal_stays_in_denominator_witness :
  Backtester.trial frame_never ([] ++ 1%nat :: []) 0.95 1.25
  = (st <- Backtester.for_signals frame_never 0.95 1.25 ([] ++ [])
             (0%Z, 0) ;;
     accuracy <- py_truediv (fst st) (Z.of_nat (0 + 1 + 0)) ;;
     Ok (accuracy, snd st)).
Proof.
  refine (proj2 (unresolved_signal_stays_in_denominator frame_never 0.95 1.25
                   [] [] 1 (mkBar 102 100 (Some 1)) eq_refl _)).
  repeat constructor.
Defined.

(** C9. For a frame with at least one entry signal and any pair of ratios,
    the trial completes, counts at most one win per signal, and its win-rate
    [winCount / totalSignals] lies in the closed interval from 0 to 1. *)
Theorem trial_winrate_in_unit_interval (stock_data : DataFrame)
    (stop profit : Q) :
  signals_of stock_data <> [] ->
  exists wins money,
    Backtester.for_signals stock_data stop profit (signals_of stock_data)
      (0%Z, 0) = Ok (wins, money)
    /\ (0 <= wins <= Z.of_nat (length (signals_of stock_data)))%Z
    /\ Backtester.trial stock_data (signals_of stock_data) stop profit
       = Ok (inject_Z wins
             / inject_Z (Z.of_nat (length (signals_of stock_data))), money)
    /\ 0 <= inject_Z wins
            / inject_Z (Z.of_nat (length (signals_of stock_data)))
    /\ inject_Z wins / inject_Z (Z.of_nat (length (signals_of stock_data)))
       <= 1.
Proof.
  intros Hne.
  destruct (for_signals_total stock_data stop profit _
              (signals_of_in_range stock_data) (0%Z, 0))
    as (wins & money & Hrun & Hb).
  cbn [fst] in Hb.
  assert (Hpos : (0 < Z.of_nat (length (signals_of stock_data)))%Z).
  { destruct (signals_of stock_data); [congruence|].
    rewrite length_cons. lia. }
  exists wins, money. split; [exact Hrun|]. split; [lia|]. split.
  - unfold Backtester.trial. rewrite Hrun. cbn [bind fst snd].
    unfold py_truediv.
    destruct (Z.eqb_spec (Z.of_nat (length (signals_of stock_data))) 0);
      [lia|reflexivity].
  - apply ratio_in_unit_interval; lia.
Qed.

Lemma trial_winrate_in_unit_interval_witness :
  exists wins money,
    Backtester.trial frame_win (signals_of frame_win) 0.95 1.25
    = Ok (inject_Z wins
          / inject_Z (Z.of_nat (length (signals_of frame_win))), money).
Proof.
  destruct (trial_winrate_in_unit_interval frame_win 0.95 1.25)
    as (wins & money & _ & _ & Htrial & _).
  - vm_compute. discriminate.
  - exists wins, money. exact Htrial.
Defined.

(** ** The grid search and its selection rule *)

Lemma search_app (stock_data : DataFrame) (signals : list nat)
    (l1 l2 : list (Q * Q)) :
  forall b,
    Spec.search stock_data signals (l1 ++ l2) b
    = (b' <- Spec.search stock_data signals l1 b ;;
       Spec.search stock_data signals l2 b').
Proof.
  induction l1 as [|sp l1 IH]; intros b; simpl; [reflexivity|].
  destruct (Backtester.trial stock_data signals (fst sp) (snd sp));
    simpl; auto.
Qed.

Lemma for_profit_search (stock_data : DataFrame) (signals : list nat)
    (stop : Q) (profits : list Q) :
  forall b,
    Backtester.for_profit stock_data signals stop profits b
    = Spec.search stock_data signals
        (map (fun profit => (stop, profit)) profits) b.
Proof.
  induction profits as [|profit profits IH]; intros b; simpl;
    [reflexivity|].
  destruct (Backtester.trial stock_data signals stop profit) as [r| |];
    simpl; try reflexivity.
  unfold Spec.select. simpl.
  destruct (Qgtb (fst r) (Backtester.greatest_accuracy b)
            || Qgeb (snd r) (Backtester.greatest_money b)); apply IH.
Qed.

Lemma for_stop_search (stock_data : DataFrame) (signals : list nat)
    (profits stops : list Q) :
  forall b,
    Backtester.for_stop stock_data signals profits stops b
    = Spec.search stock_data signals (Spec.cross_product stops profits) b.
Proof.
  induction stops as [|stop stops IH]; intros b; simpl; [reflexivity|].
  rewrite search_app, for_profit_search.
  destruct (Spec.search stock_data signals
              (map (fun profit => (stop, profit)) profits) b);
    simpl; auto.
Qed.

Lemma replaces_iff (b : Backtester.best) (winRate cumulativeProfit : Q) :
  Qgtb winRate (Backtester.greatest_accuracy b)
  || Qgeb cumulativeProfit (Backtester.greatest_money b) = true
  <-> Spec.replaces b winRate cumulativeProfit.
Proof.
  unfold Spec.replaces, Qgtb, Qgeb.
  rewrite orb_true_iff, negb_true_iff, Qle_bool_iff.
  split; intros [H|H]; auto; left.
  - apply Qnot_le_lt. intros C. apply Qle_bool_iff in C. congruence.
  - destruct (Qle_bool winRate (Backtester.greatest_accuracy b)) eqn:E;
      [|reflexivity].
    apply Qle_bool_iff in E. exfalso. exact (Qlt_not_le _ _ H E).
Qed.

(** C1. The two nested loops of the grid search are one pass over the full
    cross-product of the stop ratios (outermost, in listed order) and the
    profit ratios (in listed order); in that pass a trial replaces the
    running best exactly when its win-rate is strictly greater than the
    best accuracy so far or its cumulative profit is at least the best money
    so far, and a replacement sets accuracy, money, profit ratio and stop
    ratio together. *)
Theorem grid_search_selection_rule (self : Backtester.t)
    (stock_data : DataFrame) :
  Backtester.grid_search self stock_data
  = Spec.search stock_data (signals_of stock_data)
      (Spec.cross_product (Backtester.stop_ratios self)
         (Backtester.profit_ratios self))
      Backtester.best0
  /\ forall b stop profit winRate cumulativeProfit,
       (Spec.replaces b winRate cumulativeProfit ->
        Spec.select b (stop, profit) (winRate, cumulativeProfit)
        = Backtester.mkBest winRate cumulativeProfit
            (Some profit) (Some stop))
       /\ (~ Spec.replaces b winRate cumulativeProfit ->
           Spec.select b (stop, profit) (winRate, cumulativeProfit) = b).
Proof.
  split; [apply for_stop_search|].
  intros b stop profit winRate cumulativeProfit.
  unfold Spec.select. cbn [fst snd].
  destruct (Qgtb winRate (Backtester.greatest_accuracy b)
            || Qgeb cumulativeProfit (Backtester.greatest_money b)) eqn:E.
  - split; [reflexivity|]. intros Hn. exfalso. apply Hn.
    now apply replaces_iff.
  - split; [|reflexivity]. intros Hr. apply replaces_iff in Hr. congruence.
Qed.

Lemma grid_search_selection_rule_witness :
  Spec.select Backtester.best0 (0.95, 1.25) (1, 118.75)
  = Backtester.mkBest 1 118.75 (Some 1.25) (Some 0.95)
  /\ Spec.select (Backtester.mkBest 1 200 (Some 2) (Some 1)) (1, 2.25)
       (0, 0)
     = Backtester.mkBest 1 200 (Some 2) (Some 1).
Proof.
  split.
  - apply (proj2 (grid_search_selection_rule (Backtester.init []) frame_win)).
    left. vm_compute. reflexivity.
  - apply (proj2 (grid_search_selection_rule (Backtester.init []) frame_win)).
    unfold Spec.replaces. vm_compute. intros [H|H]; [discriminate H|].
    apply H. reflexivity.
Defined.

Lemma select_bound (b : Backtester.best) (sp r : Q * Q) :
  bound_or_initial b -> bound_or_initial (Spec.select b sp r).
Proof.
  intros Hb. unfold Spec.select.
  destruct (Qgtb (fst r) (Backtester.greatest_accuracy b)
            || Qgeb (snd r) (Backtester.greatest_money b)); [|exact Hb].
  right. exists (snd sp), (fst sp). split; reflexivity.
Qed.

Lemma search_bound (stock_data : DataFrame) (signals : list nat)
    (pairs : list (Q * Q)) :
  forall b b',
    bound_or_initial b ->
    Spec.search stock_data signals pairs b = Ok b' ->
    bound_or_initial b'.
Proof.
  induction pairs as [|sp pairs IH]; intros b b' Hb Hrun; simpl in Hrun.
  - injection Hrun as <-. exact Hb.
  - destruct (Backtester.trial stock_data signals (fst sp) (snd sp))
      as [r| |]; simpl in Hrun; try discriminate.
    eapply IH; [|exact Hrun]. now apply select_bound.
Qed.

Lemma grid_search_bound (self : Backtester.t) (stock_data : DataFrame)
    (b : Backtester.best) :
  Backtester.grid_search self stock_data = Ok b -> bound_or_initial b.
Proof.
  intros H. unfold Backtester.grid_search in H.
  rewrite for_stop_search in H.
  eapply search_bound; [|exact H]. now left.
Qed.

(** When no trial of the pass has a win, the best accuracy ends at zero. *)
Lemma search_without_wins (stock_data : DataFrame) (signals : list nat)
    (pairs : list (Q * Q)) :
  (forall sp r, In sp pairs ->
     Backtester.trial stock_data signals (fst sp) (snd sp) = Ok r ->
     fst r == 0) ->
  forall b b',
    Backtester.greatest_accuracy b == 0 ->
    Spec.search stock_data signals pairs b = Ok b' ->
    Backtester.greatest_accuracy b' == 0.
Proof.
  induction pairs as [|sp pairs IH]; intros Hall b b' Hb Hrun;
    simpl in Hrun.
  - injection Hrun as <-. exact Hb.
  - destruct (Backtester.trial stock_data signals (fst sp) (snd sp))
      as [r| |] eqn:Et; simpl in Hrun; try discriminate.
    eapply IH; [| |exact Hrun].
    + intros sp' r' Hin. apply Hall. now right.
    + unfold Spec.select.
      destruct (Qgtb (fst r) (Backtester.greatest_accuracy b)
                || Qgeb (snd r) (Backtester.greatest_money b));
        [|exact Hb].
      simpl. apply (Hall sp r); [now left|exact Et].
Qed.

(** ** [add_data]: outcome or removal *)

(** C4. When the grid search of an instrument ends with a best win-rate of
    zero, [add_data] puts the instrument on the removal list and leaves the
    four outcome lists as they were; when it ends with a nonzero best
    win-rate, [add_data] appends exactly one entry (best profit ratio, best
    stop ratio, best win-rate, best money) to each of the four outcome lists
    and leaves the removal list as it was. *)
Theorem add_data_outcome_or_removal (self : Backtester.t) (h : Heap)
    (stock : ref) (b : Backtester.best) :
  Backtester.grid_search self (data (h stock)) = Ok b ->
  (Backtester.greatest_accuracy b == 0 ->
   exists self',
     Backtester.add_data self h stock = Return self'
     /\ Backtester.remove_stocks self'
        = Backtester.remove_stocks self ++ [stock]
     /\ Backtester.optimal_profit_ratio self'
        = Backtester.optimal_profit_ratio self
     /\ Backtester.optimal_risk_ratio self'
        = Backtester.optimal_risk_ratio self
     /\ Backtester.winrates self' = Backtester.winrates self
     /\ Backtester.money_made self' = Backtester.money_made self)
  /\ (~ Backtester.greatest_accuracy b == 0 ->
      exists self' p s,
        Backtester.add_data self h stock = Return self'
        /\ Backtester.best_profit_ratio b = Some p
        /\ Backtester.best_stop_ratio b = Some s
        /\ Backtester.remove_stocks self' = Backtester.remove_stocks self
        /\ Backtester.optimal_profit_ratio self'
           = Backtester.optimal_profit_ratio self ++ [p]
        /\ Backtester.optimal_risk_ratio self'
           = Backtester.optimal_risk_ratio self ++ [s]
        /\ Backtester.winrates self'
           = Backtester.winrates self ++ [Backtester.greatest_accuracy b]
        /\ Backtester.money_made self'
           = Backtester.money_made self ++ [Backtester.greatest_money b]).
Proof.
  intros Hgs. pose proof (grid_search_bound _ _ _ Hgs) as Hb.
  unfold Backtester.add_data. rewrite Hgs. split.
  - intros Hz. apply Qeq_bool_iff in Hz. rewrite Hz. cbn [negb].
    eexists. split; [reflexivity|]. repeat split.
  - intros Hnz.
    destruct (Qeq_bool (Backtester.greatest_accuracy b) 0) eqn:E.
    { apply Qeq_bool_iff in E. contradiction. }
    cbn [negb]. destruct Hb as [->|(p & s & Hp & Hs)].
    + discriminate E.
    + rewrite Hp, Hs. eexists _, p, s. split; [reflexivity|].
      repeat split.
Qed.

Lemma add_data_outcome_or_removal_witness :
  (exists self',
     Backtester.add_data (Backtester.init [1%nat]) sample_heap 1%nat
     = Return self'
     /\ Backtester.remove_stocks self' = [1%nat])
  /\ (exists self',
        Backtester.add_data (Backtester.init [0%nat]) sample_heap 0%nat
        = Return self'
        /\ Backtester.winrates self' = [1]).
Proof.
  split.
  - destruct (proj1 (add_data_outcome_or_removal (Backtester.init [1%nat])
                       sample_heap 1%nat
                       (Backtester.mkBest 0 0 (Some 3) (Some 1)) eq_refl))
      as (self' & Hrun & Hrem & _).
    + reflexivity.
    + exists self'. split; [exact Hrun|exact Hrem].
  - destruct (proj2 (add_data_outcome_or_removal (Backtester.init [0%nat])
                       sample_heap 0%nat
                       (Backtester.mkBest 1 200 (Some 2) (Some 1)) eq_refl))
      as (self' & p & s & Hrun & _ & _ & _ & _ & _ & Hw & _).
    + vm_compute. discriminate.
    + exists self'. split; [exact Hrun|exact Hw].
Defined.

(** What one call of [add_data] does to the backtester. *)
Lemma add_data_cases (self : Backtester.t) (h : Heap) (stock : ref) :
  (forall self',
     Backtester.add_data self h stock = Return self' ->
     Backtester.stocks self' = Backtester.stocks self
     /\ Backtester.profit_ratios self' = Backtester.profit_ratios self
     /\ Backtester.stop_ratios self' = Backtester.stop_ratios self
     /\ ((exists p s a m, self' = Backtester.append_outcome self p s a m)
         \/ self' = Backtester.append_remove self stock))
  /\ (forall e self',
        Backtester.add_data self h stock = Raised e self' -> self' = self).
Proof.
  unfold Backtester.add_data.
  destruct (Backtester.grid_search self (data (h stock))) as [b|e0|] eqn:Hgs.
  - pose proof (grid_search_bound _ _ _ Hgs) as Hb.
    destruct (Qeq_bool (Backtester.greatest_accuracy b) 0) eqn:E;
      cbn [negb].
    + split; [|discriminate]. intros self' Hret. injection Hret as <-.
      repeat split. now right.
    + destruct Hb as [->|(p & s & Hp & Hs)]; [discriminate E|].
      rewrite Hp, Hs. split; [|discriminate].
      intros self' Hret. injection Hret as <-.
      repeat split. left. now exists p, s, (Backtester.greatest_accuracy b),
                            (Backtester.greatest_money b).
  - split; [discriminate|]. intros e self' Hr. now injection Hr as _ <-.
  - split; discriminate.
Qed.

(** C6, as stated, fails: on a viable instrument [add_data] itself appends
    to the outcome lists of the backtester it is called on. *)
Lemma add_data_mutates_outcome_lists :
  Backtester.add_data (Backtester.init [0%nat]) sample_heap 0%nat
  = Return (Backtester.append_outcome (Backtester.init [0%nat]) 2 1 1 200)
  /\ ~ (forall self',
         Backtester.add_data (Backtester.init [0%nat]) sample_heap 0%nat
         = Return self' ->
         Backtester.stocks self' = Backtester.stocks (Backtester.init [0%nat])
         /\ Backtester.optimal_profit_ratio self' = []
         /\ Backtester.optimal_risk_ratio self' = []
         /\ Backtester.winrates self' = []
         /\ Backtester.money_made self' = []).
Proof.
  split; [reflexivity|].
  intros H. destruct (H _ eq_refl) as (_ & Hp & _). discriminate Hp.
Qed.

(** C6, amended. [add_data] returns nothing and works on the backtester
    directly: it leaves the tracked-instrument list and the two ratio grids
    unchanged and reads the heap without writing it; on a normal return the
    backtester differs from the one before the call by one entry appended to
    each of the four outcome lists, or by the instrument appended to the
    removal list; when it raises, the backtester is unchanged. *)
Theorem add_data_frame (self : Backtester.t) (h : Heap) (stock : ref) :
  (forall self',
     Backtester.add_data self h stock = Return self' ->
     Backtester.stocks self' = Backtester.stocks self
     /\ Backtester.profit_ratios self' = Backtester.profit_ratios self
     /\ Backtester.stop_ratios self' = Backtester.stop_ratios self
     /\ ((exists p s a m, self' = Backtester.append_outcome self p s a m)
         \/ self' = Backtester.append_remove self stock))
  /\ (forall e self',
        Backtester.add_data self h stock = Raised e self' -> self' = self).
Proof. exact (add_data_cases self h stock). Qed.

Lemma add_data_frame_witness :
  Backtester.stocks
    (Backtester.append_outcome (Backtester.init [0%nat]) 2 1 1 200)
  = Backtester.stocks (Backtester.init [0%nat]).
Proof.
  exact (proj1 (proj1 (add_data_frame (Backtester.init [0%nat]) sample_heap
                         0%nat)
                  (Backtester.append_outcome (Backtester.init [0%nat])
                     2 1 1 200)
                  eq_refl)).
Defined.

(** ** Frames without an entry signal *)

(** C8, as stated, fails: on a frame without entry signals the only failure
    is the interpreter's own division error. *)
Lemma no_signals_is_not_reported_as_such :
  signals_of (data (sample_heap 2%nat)) = []
  /\ ~ no_signals_condition
         (Backtester.add_data (Backtester.init [2%nat]) sample_heap 2%nat).
Proof.
  split; [reflexivity|].
  intros (e & self' & Hrun & Hmsg).
  vm_compute in Hrun. injection Hrun as <- _.
  discriminate Hmsg.
Qed.

(** C8, amended. On a frame without entry signals and a grid that has at
    least one stop ratio and one profit ratio, [add_data] stops at the first
    trial with the interpreter's [ZeroDivisionError] (the win-rate division
    by the number of signals); it records neither an outcome nor a removal,
    so no non-numeric win-rate is ever stored. *)
Theorem no_signals_raises_division_by_zero (self : Backtester.t) (h : Heap)
    (stock : ref) :
  signals_of (data (h stock)) = [] ->
  Backtester.stop_ratios self <> [] ->
  Backtester.profit_ratios self <> [] ->
  (forall stop profit,
     Backtester.trial (data (h stock)) (signals_of (data (h stock)))
       stop profit = Raise division_by_zero)
  /\ Backtester.add_data self h stock = Raised division_by_zero self.
Proof.
  intros Hsig Hstops Hprofits.
  assert (Htrial : forall stop profit,
             Backtester.trial (data (h stock)) (signals_of (data (h stock)))
               stop profit = Raise division_by_zero).
  { intros stop profit. rewrite Hsig. reflexivity. }
  split; [exact Htrial|].
  unfold Backtester.add_data, Backtester.grid_search.
  destruct (Backtester.stop_ratios self) as [|stop stops]; [congruence|].
  destruct (Backtester.profit_ratios self) as [|profit profits];
    [congruence|].
  cbn [Backtester.for_stop Backtester.for_profit].
  rewrite Htrial. reflexivity.
Qed.

Lemma no_signals_raises_division_by_zero_witness :
  Backtester.add_data (Backtester.init [2%nat]) sample_heap 2%nat
  = Raised division_by_zero (Backtester.init [2%nat]).
Proof.
  apply (no_signals_raises_division_by_zero (Backtester.init [2%nat])
           sample_heap 2%nat).
  - reflexivity.
  - discriminate.
  - discriminate.
Defined.

(** ** Tracked instruments and outcome lists *)

Lemma py_remove_present (l : list nat) (x : nat) :
  (0 < count_occ Nat.eq_dec l x)%nat ->
  exists l',
    py_remove x l = Ok l'
    /\ length l = S (length l')
    /\ forall y, count_occ Nat.eq_dec l y
                 = (count_occ Nat.eq_dec l' y
                    + if Nat.eq_dec x y then 1 else 0)%nat.
Proof.
  induction l as [|z l IH]; simpl; intros Hpos; [lia|].
  destruct (Nat.eqb_spec z x) as [->|Hne].
  - exists l. repeat split. intros y.
    destruct (Nat.eq_dec x y); lia.
  - destruct (Nat.eq_dec z x) as [E|_]; [contradiction|].
    destruct (IH Hpos) as (l' & Hrun & Hlen & Hcount).
    exists (z :: l'). rewrite Hrun. simpl.
    repeat split; [lia|]. intros y. rewrite Hcount.
    destruct (Nat.eq_dec z y); lia.
Qed.

Lemma for_removes_effect (todo : list ref) :
  forall self,
    (forall x, count_occ Nat.eq_dec todo x
               <= count_occ Nat.eq_dec (Backtester.stocks self) x)%nat ->
    exists l,
      Backtester.for_removes todo self
      = Return (Backtester.set_stocks self l)
      /\ (length l + length todo = length (Backtester.stocks self))%nat.
Proof.
  induction todo as [|r todo IH]; intros self Hsub.
  - exists (Backtester.stocks self). split; [|simpl; lia].
    destruct self; reflexivity.
  - assert (Hpos : (0 < count_occ Nat.eq_dec (Backtester.stocks self) r)%nat).
    { specialize (Hsub r). simpl in Hsub.
      destruct (Nat.eq_dec r r); [lia|congruence]. }
    destruct (py_remove_present _ _ Hpos) as (l' & Hrun & Hlen & Hcount).
    cbn [Backtester.for_removes]. rewrite Hrun.
    destruct (IH (Backtester.set_stocks self l')) as (l & Hrest & Hl).
    + intros x. specialize (Hsub x). rewrite Hcount in Hsub.
      simpl in Hsub |- *. destruct (Nat.eq_dec r x); lia.
    + exists l. split; [exact Hrest|]. simpl in Hl |- *.
      unfold ref in *. lia.
Qed.

Lemma outcome_lengths_append_outcome (self : Backtester.t) (p s a m : Q)
    (n : nat) :
  outcome_lengths self n ->
  outcome_lengths (Backtester.append_outcome self p s a m) (S n).
Proof.
  intros (H1 & H2 & H3 & H4). unfold outcome_lengths. simpl.
  rewrite !length_app. simpl. lia.
Qed.

Lemma for_stocks_effect (h : Heap) (todo : list ref) :
  forall self self' n,
    Backtester.for_stocks h todo self = Return self' ->
    outcome_lengths self n ->
    Backtester.stocks self' = Backtester.stocks self
    /\ exists k R,
         outcome_lengths self' (n + k)
         /\ Backtester.remove_stocks self'
            = Backtester.remove_stocks self ++ R
         /\ (k + length R = length todo)%nat
         /\ forall x, (count_occ Nat.eq_dec R x
                       <= count_occ Nat.eq_dec todo x)%nat.
Proof.
  induction todo as [|stock todo IH]; intros self self' n Hrun Hn.
  - injection Hrun as <-. split; [reflexivity|].
    exists 0%nat, []. rewrite Nat.add_0_r, app_nil_r. auto.
  - cbn [Backtester.for_stocks] in Hrun.
    destruct (Backtester.add_data self h stock) as [self1|e self1|] eqn:Ha;
      try discriminate.
    destruct (proj1 (add_data_cases self h stock) _ Ha)
      as (Hst & _ & _ & [(p & s & a & m & ->)| ->]).
    + destruct (IH _ _ (S n) Hrun
                  (outcome_lengths_append_outcome _ p s a m _ Hn))
        as (Hst' & k & R & Hk & HR & Hlen & Hcount).
      split; [exact Hst'|].
      exists (S k), R. rewrite Nat.add_succ_r.
      repeat split; [apply Hk..|exact HR|simpl; lia|].
      intros x. specialize (Hcount x). simpl.
      destruct (Nat.eq_dec stock x); lia.
    + destruct (IH _ _ n Hrun Hn)
        as (Hst' & k & R & Hk & HR & Hlen & Hcount).
      split; [exact Hst'|].
      exists k, (stock :: R).
      repeat split; [apply Hk..| | simpl; lia|].
      * rewrite HR. simpl. now rewrite <- app_assoc.
      * intros x. specialize (Hcount x). simpl.
        destruct (Nat.eq_dec stock x); lia.
Qed.

(** After [execute] the tracked instruments and the outcome lists are
    index-aligned, whatever the state before. *)
Lemma execute_aligned (self : Backtester.t) (h : Heap)
    (self' : Backtester.t) :
  Backtester.execute self h = Return self' -> aligned self'.
Proof.
  unfold Backtester.execute. intros Hrun.
  destruct (Backtester.for_stocks h (Backtester.stocks (Backtester.clear self))
              (Backtester.clear self)) as [self1|e self1|] eqn:Hloop;
    try discriminate.
  destruct (for_stocks_effect h _ _ _ 0%nat Hloop)
    as (Hst & k & R & Hk & HR & Hlen & Hcount).
  { repeat split. }
  simpl in HR. rewrite HR in Hrun.
  destruct (for_removes_effect R self1) as (l & Hrem & Hl).
  { intros x. rewrite Hst. apply Hcount. }
  rewrite Hrem in Hrun. injection Hrun as <-.
  unfold aligned. simpl.
  replace (length l) with k by (rewrite Hst in Hl; lia).
  exact Hk.
Qed.

Lemma delete_at_length {A : Type} (l : list A) :
  forall i, (i < length l)%nat -> length l = S (length (delete_at i l)).
Proof.
  induction l as [|x l IH]; intros [|i] Hi; simpl in *; try lia.
  rewrite <- IH; lia.
Qed.

Lemma py_pop_length {A : Type} (l l' : list A) (index : Z) :
  py_pop l index = Ok l' -> length l = S (length l').
Proof.
  unfold py_pop. intros H.
  destruct ((0 <=? index)%Z && (index <? Z.of_nat (length l))%Z) eqn:E1.
  - injection H as <-. apply andb_true_iff in E1. destruct E1 as [Ha Hb].
    apply delete_at_length. lia.
  - destruct ((- Z.of_nat (length l) <=? index)%Z && (index <? 0)%Z) eqn:E2;
      [|discriminate].
    injection H as <-. apply andb_true_iff in E2. destruct E2 as [Ha Hb].
    apply delete_at_length. lia.
Qed.

Lemma remove_stock_effect (self self' : Backtester.t) (index : Z) :
  Backtester.remove_stock self index = Return self' ->
  Backtester.stocks self' = Backtester.stocks self
  /\ forall n, outcome_lengths self n ->
               exists m, n = S m /\ outcome_lengths self' m.
Proof.
  unfold Backtester.remove_stock. intros H.
  destruct (py_pop (Backtester.winrates self) index) as [w| |] eqn:Ew;
    try discriminate.
  destruct (py_pop (Backtester.optimal_profit_ratio self) index)
    as [p| |] eqn:Ep; try discriminate.
  destruct (py_pop (Backtester.optimal_risk_ratio self) index)
    as [r| |] eqn:Er; try discriminate.
  destruct (py_pop (Backtester.money_made self) index)
    as [m| |] eqn:Em; try discriminate.
  injection H as <-. split; [reflexivity|].
  apply py_pop_length in Ew, Ep, Er, Em.
  intros n (H1 & H2 & H3 & H4). exists (length w).
  unfold outcome_lengths. simpl. repeat split; lia.
Qed.

Lemma add_stock_runs_add_data (self self' : Backtester.t) (h h' : Heap)
    (stock : ref) :
  Backtester.add_stock self h stock = Return (self', h') ->
  Backtester.add_data self h stock = Return self'.
Proof.
  unfold Backtester.add_stock. intros H.
  destruct (Backtester.add_data self h stock) as [self1|e self1|];
    try discriminate.
  repeat match type of H with
         | match ?m with _ => _ end = _ => destruct m; try discriminate
         end.
  now injection H as <- _.
Qed.

Lemma add_stock_effect (self self' : Backtester.t) (h h' : Heap)
    (stock : ref) :
  Backtester.add_stock self h stock = Return (self', h') ->
  Backtester.stocks self' = Backtester.stocks self
  /\ forall n, outcome_lengths self n ->
               outcome_lengths self' n \/ outcome_lengths self' (S n).
Proof.
  intros H. apply add_stock_runs_add_data in H.
  destruct (proj1 (add_data_cases self h stock) _ H)
    as (Hst & _ & _ & [(p & s & a & m & ->)| ->]).
  - split; [exact Hst|]. intros n Hn. right.
    now apply outcome_lengths_append_outcome.
  - split; [exact Hst|]. intros n Hn. now left.
Qed.

Lemma run_calls_app (before after : list call) :
  forall self h self' h',
    run_calls (before ++ after) self h = Return (self', h') ->
    exists self1 h1,
      run_calls before self h = Return (self1, h1)
      /\ run_calls after self1 h1 = Return (self', h').
Proof.
  induction before as [|c before IH]; intros self h self' h' H.
  - now exists self, h.
  - simpl in H |- *.
    destruct (do_call c self h) as [[self1 h1]|e s|]; try discriminate.
    now apply IH.
Qed.

(** C5, as stated, fails: [remove_stock] pops the outcome lists and leaves
    the tracked instruments alone. *)
Lemma remove_stock_breaks_alignment :
  exists self' h',
    run_calls [Execute; RemoveStock 0] (Backtester.init [0%nat]) sample_heap
    = Return (self', h')
    /\ length (Backtester.stocks self') = 1%nat
    /\ length (Backtester.winrates self') = 0%nat
    /\ ~ aligned self'.
Proof.
  eexists _, _. split; [vm_compute; reflexivity|].
  repeat split. intros (H & _). discriminate H.
Qed.

(** C5, amended. After any sequence of [add_stock], [remove_stock] and
    [execute] calls that return, started on a backtester whose four outcome
    lists have one common length (as after construction), the four outcome
    lists again have one common length; this length is that of the tracked
    instruments whenever the last call was [execute]; [add_stock] and
    [remove_stock] never change the tracked instruments, so after them the
    alignment is left to the caller. *)
Theorem outcome_lists_in_step (calls : list call) (self : Backtester.t)
    (h : Heap) (n0 : nat) (self' : Backtester.t) (h' : Heap) :
  outcome_lengths self n0 ->
  run_calls calls self h = Return (self', h') ->
  (exists n, outcome_lengths self' n)
  /\ (forall before, calls = before ++ [Execute] -> aligned self')
  /\ ((forall c, In c calls -> c <> Execute) ->
      Backtester.stocks self' = Backtester.stocks self).
Proof.
  intros H0 Hrun. split; [|split].
  - revert self h n0 H0 Hrun.
    induction calls as [|c calls IH]; intros self h n0 H0 Hrun.
    + injection Hrun as <- _. now exists n0.
    + simpl in Hrun.
      destruct (do_call c self h) as [[self1 h1]|e s|] eqn:Hc;
        try discriminate.
      destruct c as [stock|index|]; simpl in Hc.
      * destruct (proj2 (add_stock_effect _ _ _ _ _ Hc) _ H0);
          eapply IH; eauto.
      * destruct (Backtester.remove_stock self index) as [s1|e s1|] eqn:Hr;
          try discriminate.
        injection Hc as <- <-.
        destruct (proj2 (remove_stock_effect _ _ _ Hr) _ H0)
          as (m & _ & Hm).
        eapply IH; eauto.
      * destruct (Backtester.execute self h) as [s1|e s1|] eqn:He;
          try discriminate.
        injection Hc as <- <-.
        eapply IH; [exact (execute_aligned _ _ _ He)|exact Hrun].
  - intros before ->.
    destruct (run_calls_app _ _ _ _ _ _ Hrun) as (s1 & h1 & _ & Hlast).
    simpl in Hlast.
    destruct (Backtester.execute s1 h1) as [s2|e s2|] eqn:He;
      try discriminate.
    injection Hlast as <- _. exact (execute_aligned _ _ _ He).
  - clear H0. revert self h Hrun.
    induction calls as [|c calls IH]; intros self h Hrun Hno.
    + now injection Hrun as <- _.
    + simpl in Hrun.
      destruct (do_call c self h) as [[self1 h1]|e s|] eqn:Hc;
        try discriminate.
      rewrite (IH _ _ Hrun) by (intros c' Hin; apply Hno; now right).
      destruct c as [stock|index|]; simpl in Hc.
      * exact (proj1 (add_stock_effect _ _ _ _ _ Hc)).
      * destruct (Backtester.remove_stock self index) as [s1|e s1|] eqn:Hr;
          try discriminate.
        injection Hc as <- _. exact (proj1 (remove_stock_effect _ _ _ Hr)).
      * exfalso. apply (Hno Execute); [now left|reflexivity].
Qed.

Lemma outcome_lists_in_step_witness :
  exists self' h',
    run_calls [AddStock 0%nat; RemoveStock 0; Execute]
      (Backtester.init [0%nat; 1%nat]) sample_heap = Return (self', h')
    /\ aligned self'.
Proof.
  eexists _, _. split; [vm_compute; reflexivity|].
  refine (proj1 (proj2 (outcome_lists_in_step
                          [AddStock 0%nat; RemoveStock 0; Execute]
                          (Backtester.init [0%nat; 1%nat]) sample_heap 0
                          _ _ _ _)) [AddStock 0%nat; RemoveStock 0] eq_refl).
  - repeat split.
  - vm_compute. reflexivity.
Defined.

(** ** [add_stock]: which configuration receives which outcome *)

Lemma py_last_app {A : Type} (l : list A) (x : A) :
  py_last (l ++ [x]) = Ok x.
Proof. unfold py_last. now rewrite rev_unit. Qed.

Lemma setters_on_one_object (h : Heap) (r : ref) (p s a : Q) :
  let h' := set_winrate (set_stop_loss_ratio (set_profit_ratio h r p) r s)
              r a in
  ratio (h' r) = p /\ stop_loss_percentage (h' r) = s /\ winrate (h' r) = a
  /\ symbol (h' r) = symbol (h r) /\ data (h' r) = data (h r)
  /\ forall r', r' <> r -> h' r' = h r'.
Proof.
  cbv zeta.
  unfold set_winrate, set_stop_loss_ratio, set_profit_ratio, heap_update.
  rewrite !Nat.eqb_refl. simpl. repeat split.
  intros r' Hne. now destruct (Nat.eqb_spec r' r).
Qed.

Lemma add_data_viable (self : Backtester.t) (h : Heap) (stock : ref)
    (b : Backtester.best) :
  Backtester.grid_search self (data (h stock)) = Ok b ->
  ~ Backtester.greatest_accuracy b == 0 ->
  exists p s,
    Backtester.best_profit_ratio b = Some p
    /\ Backtester.best_stop_ratio b = Some s
    /\ Backtester.add_data self h stock
       = Return (Backtester.append_outcome self p s
                   (Backtester.greatest_accuracy b)
                   (Backtester.greatest_money b)).
Proof.
  intros Hgs Hnz. pose proof (grid_search_bound _ _ _ Hgs) as Hb.
  unfold Backtester.add_data. rewrite Hgs.
  destruct (Qeq_bool (Backtester.greatest_accuracy b) 0) eqn:E.
  { apply Qeq_bool_iff in E. contradiction. }
  cbn [negb]. destruct Hb as [->|(p & s & Hp & Hs)]; [discriminate E|].
  exists p, s. now rewrite Hp, Hs.
Qed.

Lemma add_data_not_viable (self : Backtester.t) (h : Heap) (stock : ref)
    (b : Backtester.best) :
  Backtester.grid_search self (data (h stock)) = Ok b ->
  Backtester.greatest_accuracy b == 0 ->
  Backtester.add_data self h stock
  = Return (Backtester.append_remove self stock).
Proof.
  intros Hgs Hz. unfold Backtester.add_data. rewrite Hgs.
  apply Qeq_bool_iff in Hz. now rewrite Hz.
Qed.

(** With a viable search, and the new object last in the tracked list (where
    [StockContainer.add_stock] puts it), the object receives its own
    outcome. *)
Lemma add_stock_viable (self : Backtester.t) (h : Heap) (stock : ref)
    (others : list ref) (b : Backtester.best) :
  Backtester.stocks self = others ++ [stock] ->
  Backtester.grid_search self (data (h stock)) = Ok b ->
  ~ Backtester.greatest_accuracy b == 0 ->
  exists p s h',
    Backtester.best_profit_ratio b = Some p
    /\ Backtester.best_stop_ratio b = Some s
    /\ Backtester.add_stock self h stock
       = Return (Backtester.append_outcome self p s
                   (Backtester.greatest_accuracy b)
                   (Backtester.greatest_money b), h')
    /\ ratio (h' stock) = p
    /\ stop_loss_percentage (h' stock) = s
    /\ winrate (h' stock) = Backtester.greatest_accuracy b.
Proof.
  intros Hst Hgs Hnz.
  destruct (add_data_viable _ _ _ _ Hgs Hnz) as (p & s & Hp & Hs & Hadd).
  exists p, s. eexists. split; [exact Hp|]. split; [exact Hs|].
  unfold Backtester.add_stock. rewrite Hadd. cbn [Backtester.append_outcome
    Backtester.stocks Backtester.optimal_profit_ratio
    Backtester.optimal_risk_ratio Backtester.winrates].
  rewrite Hst, !py_last_app. cbn [bind].
  split; [reflexivity|].
  pose proof (setters_on_one_object h stock p s
                (Backtester.greatest_accuracy b)) as H.
  cbv zeta in H. tauto.
Qed.

(** With a search that is not viable the three setters still run: the new
    object receives the last entries of the outcome lists, which belong to
    whichever instrument was appended before it. *)
Lemma add_stock_not_viable (self : Backtester.t) (h : Heap) (stock : ref)
    (others : list ref) (b : Backtester.best)
    (ps ss ws : list Q) (p0 s0 w0 : Q) :
  Backtester.stocks self = others ++ [stock] ->
  Backtester.grid_search self (data (h stock)) = Ok b ->
  Backtester.greatest_accuracy b == 0 ->
  Backtester.optimal_profit_ratio self = ps ++ [p0] ->
  Backtester.optimal_risk_ratio self = ss ++ [s0] ->
  Backtester.winrates self = ws ++ [w0] ->
  exists h',
    Backtester.add_stock self h stock
    = Return (Backtester.append_remove self stock, h')
    /\ ratio (h' stock) = p0
    /\ stop_loss_percentage (h' stock) = s0
    /\ winrate (h' stock) = w0.
Proof.
  intros Hst Hgs Hz Hp Hs Hw.
  eexists. unfold Backtester.add_stock.
  rewrite (add_data_not_viable _ _ _ _ Hgs Hz).
  cbn [Backtester.append_remove Backtester.stocks
       Backtester.optimal_profit_ratio Backtester.optimal_risk_ratio
       Backtester.winrates].
  rewrite Hst, Hp, Hs, Hw, !py_last_app. cbn [bind].
  split; [reflexivity|].
  pose proof (setters_on_one_object h stock p0 s0 w0) as H.
  cbv zeta in H. tauto.
Qed.

(** Without any earlier outcome the first setter call raises. *)
Lemma add_stock_not_viable_no_outcome (self : Backtester.t) (h : Heap)
    (stock : ref) (others : list ref) (b : Backtester.best) :
  Backtester.stocks self = others ++ [stock] ->
  Backtester.grid_search self (data (h stock)) = Ok b ->
  Backtester.greatest_accuracy b == 0 ->
  Backtester.optimal_profit_ratio self = [] ->
  Backtester.add_stock self h stock
  = Raised list_index_out_of_range (Backtester.append_remove self stock, h).
Proof.
  intros Hst Hgs Hz Hp. unfold Backtester.add_stock.
  rewrite (add_data_not_viable _ _ _ _ Hgs Hz).
  cbn [Backtester.append_remove Backtester.stocks
       Backtester.optimal_profit_ratio].
  rewrite Hst, Hp, py_last_app. reflexivity.
Qed.

(** C7, on the code: adding an instrument whose search is not viable. The
    container tracks AAPL with outcome (profit ratio 2, stop ratio 1,
    win-rate 1/2), which is what [execute] computes for it; [add_stock] of
    TSLA, whose only signal never resolves, appends TSLA to the tracked
    symbols and objects, appends no outcome and puts the new object on the
    removal list, and yet sets the configuration of the new object: TSLA
    receives AAPL's profit ratio, stop ratio and win-rate in place of the
    constructor's 1.5, 0.95 and 1. *)
Theorem add_stock_not_viable_takes_previous_outcome :
  Backtester.execute (Backtester.init [0%nat])
    (StockContainer.heap world_AAPL)
  = Return (StockContainer.backtester container_AAPL)
  /\ exists sc' w',
       StockContainer.add_stock container_AAPL world_AAPL "TSLA"
       = Return (sc', w')
       /\ StockContainer.stocks sc' = ["AAPL"; "TSLA"]%string
       /\ StockContainer.MACD_objects sc' = [0%nat; 1%nat]
       /\ Backtester.remove_stocks (StockContainer.backtester sc')
          = [1%nat]
       /\ Backtester.winrates (StockContainer.backtester sc') = [1 # 2]
       /\ symbol (StockContainer.heap w' 1%nat) = "TSLA"%string
       /\ ratio (StockContainer.heap w' 1%nat) = 2
       /\ stop_loss_percentage (StockContainer.heap w' 1%nat) = 1
       /\ winrate (StockContainer.heap w' 1%nat) = 1 # 2.
Proof.
  split; [vm_compute; reflexivity|].
  eexists _, _. split; [vm_compute; reflexivity|].
  repeat split.
Qed.

(** * Further properties of the code *)

(** ** [execute]: which instruments stay, and what the lists hold *)

Lemma grid_search_same_grid (s1 s2 : Backtester.t) (stock_data : DataFrame) :
  Backtester.profit_ratios s1 = Backtester.profit_ratios s2 ->
  Backtester.stop_ratios s1 = Backtester.stop_ratios s2 ->
  Backtester.grid_search s1 stock_data = Backtester.grid_search s2 stock_data.
Proof.
  intros Hp Hs. unfold Backtester.grid_search. now rewrite Hp, Hs.
Qed.

Lemma outcomes_for_app (self : Backtester.t) (h : Heap) (rs1 : list ref) :
  forall ps1 ss1 as1 ms1 rs2 ps2 ss2 as2 ms2,
    outcomes_for self h rs1 ps1 ss1 as1 ms1 ->
    outcomes_for self h rs2 ps2 ss2 as2 ms2 ->
    outcomes_for self h (rs1 ++ rs2) (ps1 ++ ps2) (ss1 ++ ss2)
      (as1 ++ as2) (ms1 ++ ms2).
Proof.
  induction rs1 as [|r rs1 IH]; intros ps1 ss1 as1 ms1 rs2 ps2 ss2 as2 ms2
    H1 H2; inversion H1; subst; simpl; [exact H2|].
  econstructor; eauto.
Qed.

(** The loop of [execute] over the tracked objects: the objects that are not
    viable go to the removal list, the others get their search result
    appended, both in the order of the loop. *)
Lemma for_stocks_outcomes (self0 : Backtester.t) (h : Heap)
    (todo : list ref) :
  forall s s',
    Backtester.profit_ratios s = Backtester.profit_ratios self0 ->
    Backtester.stop_ratios s = Backtester.stop_ratios self0 ->
    Backtester.for_stocks h todo s = Return s' ->
    Backtester.stocks s' = Backtester.stocks s
    /\ Backtester.profit_ratios s' = Backtester.profit_ratios self0
    /\ Backtester.stop_ratios s' = Backtester.stop_ratios self0
    /\ Backtester.remove_stocks s'
       = Backtester.remove_stocks s
         ++ filter (fun r => negb (viable self0 h r)) todo
    /\ exists ps ss accs ms,
         outcomes_for self0 h (filter (viable self0 h) todo) ps ss accs ms
         /\ Backtester.optimal_profit_ratio s'
            = Backtester.optimal_profit_ratio s ++ ps
         /\ Backtester.optimal_risk_ratio s'
            = Backtester.optimal_risk_ratio s ++ ss
         /\ Backtester.winrates s' = Backtester.winrates s ++ accs
         /\ Backtester.money_made s' = Backtester.money_made s ++ ms.
Proof.
  induction todo as [|stock todo IH]; intros s s' Hgp Hgs Hrun.
  - injection Hrun as <-. repeat split; auto.
    + now rewrite app_nil_r.
    + exists [], [], [], []. rewrite !app_nil_r. repeat split. constructor.
  - cbn [Backtester.for_stocks] in Hrun.
    destruct (Backtester.add_data s h stock) as [s1|e s1|] eqn:Ha;
      try discriminate.
    pose proof (grid_search_same_grid s self0 (data (h stock)) Hgp Hgs)
      as Hsame.
    unfold Backtester.add_data in Ha.
    destruct (Backtester.grid_search s (data (h stock))) as [b| |] eqn:Hb;
      try discriminate.
    assert (Hv : viable self0 h stock
                 = negb (Qeq_bool (Backtester.greatest_accuracy b) 0))
      by (unfold viable; now rewrite <- Hsame).
    cbn [filter]. rewrite Hv.
    destruct (Qeq_bool (Backtester.greatest_accuracy b) 0) eqn:E;
      cbn [negb] in Ha |- *.
    + injection Ha as <-.
      destruct (IH (Backtester.append_remove s stock) s' Hgp Hgs Hrun)
        as (Hst & Hp' & Hs' & Hrem & ps & ss & accs & ms & Hout & Hlists).
      repeat split; auto.
      * rewrite Hrem. simpl. now rewrite <- app_assoc.
      * now exists ps, ss, accs, ms.
    + destruct (Backtester.best_profit_ratio b) as [p|] eqn:Ep;
        [|discriminate].
      destruct (Backtester.best_stop_ratio b) as [st|] eqn:Es;
        [|discriminate].
      injection Ha as <-.
      destruct (IH (Backtester.append_outcome s p st
                      (Backtester.greatest_accuracy b)
                      (Backtester.greatest_money b)) s' Hgp Hgs Hrun)
        as (Hst & Hp' & Hs' & Hrem & ps & ss & accs & ms & Hout
            & H1 & H2 & H3 & H4).
      repeat split; auto.
      exists (p :: ps), (st :: ss),
        (Backtester.greatest_accuracy b :: accs),
        (Backtester.greatest_money b :: ms).
      simpl in H1, H2, H3, H4. rewrite <- app_assoc in H1, H2, H3, H4.
      repeat split; auto.
      econstructor; [symmetry; exact Hsame| |exact Hout].
      repeat split; assumption.
Qed.

Lemma py_remove_skip (x : nat) (pre l : list nat) :
  (forall y, In y pre -> y <> x) ->
  py_remove x (pre ++ x :: l) = Ok (pre ++ l).
Proof.
  induction pre as [|y pre IH]; intros Hpre; simpl.
  - now rewrite Nat.eqb_refl.
  - destruct (Nat.eqb_spec y x) as [E|_].
    + exfalso. apply (Hpre y); auto. now left.
    + rewrite IH; [reflexivity|]. intros z Hz. apply Hpre. now right.
Qed.

(** Removing, one by one, the objects a predicate rejects leaves the objects
    it accepts, in their order. *)
Lemma for_removes_filter (p : nat -> bool) (self : Backtester.t)
    (l : list ref) :
  forall pre,
    (forall y, In y pre -> p y = true) ->
    Backtester.for_removes (filter (fun r => negb (p r)) l)
      (Backtester.set_stocks self (pre ++ l))
    = Return (Backtester.set_stocks self (pre ++ filter p l)).
Proof.
  induction l as [|x l IH]; intros pre Hpre; [reflexivity|].
  cbn [filter]. destruct (p x) eqn:Ex; cbn [negb].
  - specialize (IH (pre ++ [x])).
    rewrite <- !app_assoc in IH. apply IH.
    intros y Hy. apply in_app_or in Hy.
    destruct Hy as [Hy|[<-|[]]]; auto.
  - cbn [Backtester.for_removes Backtester.set_stocks Backtester.stocks].
    rewrite py_remove_skip.
    + exact (IH pre Hpre).
    + intros y Hy ->. apply Hpre in Hy. congruence.
Qed.

Lemma set_stocks_same (s : Backtester.t) :
  Backtester.set_stocks s (Backtester.stocks s) = s.
Proof. now destruct s. Qed.

(** What a returning [execute] leaves behind. *)
Lemma execute_result (self : Backtester.t) (h : Heap)
    (self' : Backtester.t) :
  Backtester.execute self h = Return self' ->
  Backtester.stocks self' = filter (viable self h) (Backtester.stocks self)
  /\ Backtester.remove_stocks self'
     = filter (fun r => negb (viable self h r)) (Backtester.stocks self)
  /\ outcomes_for self h (Backtester.stocks self')
       (Backtester.optimal_profit_ratio self')
       (Backtester.optimal_risk_ratio self')
       (Backtester.winrates self') (Backtester.money_made self')
  /\ Backtester.profit_ratios self' = Backtester.profit_ratios self
  /\ Backtester.stop_ratios self' = Backtester.stop_ratios self.
Proof.
  unfold Backtester.execute. intros Hrun.
  destruct (Backtester.for_stocks h (Backtester.stocks (Backtester.clear self))
              (Backtester.clear self)) as [s1|e s1|] eqn:Hloop;
    try discriminate.
  destruct (for_stocks_outcomes self h _ (Backtester.clear self) s1
              eq_refl eq_refl Hloop)
    as (Hst & Hp & Hs & Hrem & ps & ss & accs & ms & Hout
        & H1 & H2 & H3 & H4).
  cbn [Backtester.clear Backtester.stocks Backtester.remove_stocks
       Backtester.optimal_profit_ratio Backtester.optimal_risk_ratio
       Backtester.winrates Backtester.money_made app] in *.
  rewrite Hrem in Hrun.
  assert (Hs1 : s1 = Backtester.set_stocks s1 (Backtester.stocks self))
    by (rewrite <- Hst; symmetry; apply set_stocks_same).
  rewrite Hs1 in Hrun.
  pose proof (for_removes_filter (viable self h) s1 (Backtester.stocks self)
                [] (fun y (F : In y []) => match F with end)) as Hf.
  cbn [app] in Hf.
  pose proof (eq_trans (eq_sym Hf) Hrun) as Heq. injection Heq as <-.
  cbn [Backtester.set_stocks Backtester.stocks Backtester.remove_stocks
       Backtester.optimal_profit_ratio Backtester.optimal_risk_ratio
       Backtester.winrates Backtester.money_made
       Backtester.profit_ratios Backtester.stop_ratios].
  rewrite H1, H2, H3, H4. repeat split; assumption.
Qed.

(** X1. When [execute] returns, the tracked list holds exactly the viable
    instruments in their former order, the removal list holds the others,
    and the four outcome lists hold, index by index, the result of the grid
    search of the instrument tracked at that index. *)
Theorem execute_keeps_viable (self : Backtester.t) (h : Heap)
    (self' : Backtester.t) :
  Backtester.execute self h = Return self' ->
  Backtester.stocks self' = filter (viable self h) (Backtester.stocks self)
  /\ Backtester.remove_stocks self'
     = filter (fun r => negb (viable self h r)) (Backtester.stocks self)
  /\ outcomes_for self h (Backtester.stocks self')
       (Backtester.optimal_profit_ratio self')
       (Backtester.optimal_risk_ratio self')
       (Backtester.winrates self') (Backtester.money_made self')
  /\ Backtester.profit_ratios self' = Backtester.profit_ratios self
  /\ Backtester.stop_ratios self' = Backtester.stop_ratios self.
Proof. exact (execute_result self h self'). Qed.

Lemma execute_keeps_viable_witness :
  Backtester.stocks
    (Backtester.mk [0%nat]
       (Backtester.profit_ratios (Backtester.init []))
       (Backtester.stop_ratios (Backtester.init []))
       [2] [1] [1] [200] [1%nat; 3%nat])
  = filter (viable (Backtester.init [0%nat; 1%nat; 3%nat]) sample_heap)
      (Backtester.stocks (Backtester.init [0%nat; 1%nat; 3%nat])).
Proof.
  refine (proj1 (execute_keeps_viable
                   (Backtester.init [0%nat; 1%nat; 3%nat]) sample_heap _ _)).
  vm_compute. reflexivity.
Defined.

(** ** Which exceptions the search and [execute] can raise *)

Lemma trial_total (stock_data : DataFrame) (signals : list nat)
    (stop profit : Q) :
  Forall (fun s => (s < length stock_data)%nat) signals ->
  signals <> [] ->
  exists accuracy money,
    Backtester.trial stock_data signals stop profit = Ok (accuracy, money)
    /\ 0 <= accuracy /\ accuracy <= 1.
Proof.
  intros Hrange Hne.
  destruct (for_signals_total stock_data stop profit _ Hrange (0%Z, 0))
    as (wins & money & Hrun & Hb).
  cbn [fst] in Hb.
  assert (Hpos : (0 < Z.of_nat (length signals))%Z).
  { destruct signals; [congruence|]. rewrite length_cons. lia. }
  exists (inject_Z wins / inject_Z (Z.of_nat (length signals))), money.
  split.
  - unfold Backtester.trial. rewrite Hrun. cbn [bind fst snd].
    unfold py_truediv.
    destruct (Z.eqb_spec (Z.of_nat (length signals)) 0); [lia|reflexivity].
  - apply ratio_in_unit_interval; lia.
Qed.

Lemma trial_no_signals (stock_data : DataFrame) (stop profit : Q) :
  Backtester.trial stock_data [] stop profit = Raise division_by_zero.
Proof. reflexivity. Qed.

Lemma search_total (stock_data : DataFrame) (signals : list nat)
    (pairs : list (Q * Q)) :
  Forall (fun s => (s < length stock_data)%nat) signals ->
  signals <> [] ->
  forall b, exists b', Spec.search stock_data signals pairs b = Ok b'.
Proof.
  intros Hrange Hne.
  induction pairs as [|sp pairs IH]; intros b; simpl.
  - now exists b.
  - destruct (trial_total stock_data signals (fst sp) (snd sp) Hrange Hne)
      as (a & m & -> & _). simpl. apply IH.
Qed.

(** The grid search either completes, or stops with the division error of a
    frame without signals; it never exhausts the loop budget. *)
Lemma grid_search_total (self : Backtester.t) (stock_data : DataFrame) :
  (exists b, Backtester.grid_search self stock_data = Ok b)
  \/ (Backtester.grid_search self stock_data = Raise division_by_zero
      /\ signals_of stock_data = []).
Proof.
  unfold Backtester.grid_search.
  destruct (signals_of stock_data) as [|s0 sigs] eqn:Es.
  - destruct (Backtester.stop_ratios self) as [|stop stops];
      [left; now exists Backtester.best0|].
    destruct (Backtester.profit_ratios self) as [|profit profits].
    + left. exists Backtester.best0. clear.
      induction stops as [|st stops IH]; [reflexivity|exact IH].
    + right. now split.
  - left. rewrite for_stop_search. rewrite <- Es.
    apply search_total; [apply signals_of_in_range|congruence].
Qed.

(** [add_data] returns, or raises the division error on a frame without
    signals and leaves the backtester as it was. *)
Lemma add_data_total (self : Backtester.t) (h : Heap) (stock : ref) :
  (exists self', Backtester.add_data self h stock = Return self')
  \/ (Backtester.add_data self h stock = Raised division_by_zero self
      /\ signals_of (data (h stock)) = []).
Proof.
  destruct (grid_search_total self (data (h stock)))
    as [(b & Hb)|(Hraise & Hsig)].
  - left.
    destruct (Qeq_bool (Backtester.greatest_accuracy b) 0) eqn:E.
    + exists (Backtester.append_remove self stock).
      apply (add_data_not_viable _ _ _ _ Hb). now apply Qeq_bool_iff.
    + destruct (add_data_viable _ _ _ _ Hb) as (p & s & _ & _ & Hadd).
      { intros C. apply Qeq_bool_iff in C. congruence. }
      eexists. exact Hadd.
  - right. split; [|exact Hsig].
    unfold Backtester.add_data. now rewrite Hraise.
Qed.

Lemma for_stocks_total (h : Heap) (todo : list ref) :
  forall s,
    (exists s', Backtester.for_stocks h todo s = Return s')
    \/ (exists s' r,
          Backtester.for_stocks h todo s = Raised division_by_zero s'
          /\ Backtester.stocks s' = Backtester.stocks s
          /\ In r todo /\ signals_of (data (h r)) = []).
Proof.
  induction todo as [|stock todo IH]; intros s.
  - left. now exists s.
  - cbn [Backtester.for_stocks].
    destruct (add_data_total s h stock) as [(s1 & Ha)|(Ha & Hsig)];
      rewrite Ha.
    + pose proof (proj1 (proj1 (add_data_cases s h stock) _ Ha)) as Hst.
      destruct (IH s1) as [(s' & Hr)|(s' & r & Hr & Hst' & Hin & Hsig)].
      * left. now exists s'.
      * right. exists s', r. repeat split; auto; [congruence|now right].
    + right. exists s, stock. repeat split; auto. now left.
Qed.

(** How [execute] can end. *)
Lemma execute_cases (self : Backtester.t) (h : Heap) :
  ((forall r, In r (Backtester.stocks self) ->
              signals_of (data (h r)) <> []) ->
   exists self', Backtester.execute self h = Return self')
  /\ (forall e self',
        Backtester.execute self h = Raised e self' ->
        e = division_by_zero
        /\ Backtester.stocks self' = Backtester.stocks self
        /\ exists r, In r (Backtester.stocks self)
                     /\ signals_of (data (h r)) = [])
  /\ Backtester.execute self h <> Diverged.
Proof.
  unfold Backtester.execute.
  destruct (for_stocks_total h (Backtester.stocks (Backtester.clear self))
              (Backtester.clear self))
    as [(s1 & Hloop)|(s1 & r & Hloop & Hst & Hin & Hsig)]; rewrite Hloop.
  - destruct (for_stocks_outcomes self h _ (Backtester.clear self) s1
                eq_refl eq_refl Hloop) as (Hst & _ & _ & Hrem & _).
    cbn [Backtester.clear Backtester.stocks Backtester.remove_stocks app]
      in Hst, Hrem.
    pose proof (for_removes_filter (viable self h) s1
                  (Backtester.stocks self) []
                  (fun y (F : In y []) => match F with end)) as Hf.
    cbn [app] in Hf. unfold ref in *.
    assert (E : Backtester.set_stocks s1 (Backtester.stocks self) = s1)
      by (rewrite <- Hst; apply set_stocks_same).
    rewrite <- Hrem, E in Hf.
    rewrite Hf. repeat split; try discriminate. intros _. eauto.
  - repeat split; try discriminate.
    + intros Hall. exfalso. exact (Hall r Hin Hsig).
    + now injection H as <- _.
    + now injection H as _ <-.
    + injection H as _ _. now exists r.
Qed.

(** X2. [execute] is all or nothing on signals. When every tracked
    instrument has at least one entry signal it returns. Otherwise the only
    way it ends is the [ZeroDivisionError] of an instrument without signals:
    the batch is aborted, and the tracked list is left as it was, the
    instruments found not viable before the failure included. It raises
    nothing else (in particular [list.remove] never fails) and never runs
    out of loop budget. *)
Theorem execute_all_or_nothing (self : Backtester.t) (h : Heap) :
  ((forall r, In r (Backtester.stocks self) ->
              signals_of (data (h r)) <> []) ->
   exists self', Backtester.execute self h = Return self')
  /\ (forall e self',
        Backtester.execute self h = Raised e self' ->
        e = division_by_zero
        /\ Backtester.stocks self' = Backtester.stocks self
        /\ exists r, In r (Backtester.stocks self)
                     /\ signals_of (data (h r)) = [])
  /\ Backtester.execute self h <> Diverged.
Proof. exact (execute_cases self h). Qed.

Lemma execute_all_or_nothing_witness :
  (exists self',
     Backtester.execute (Backtester.init [0%nat; 1%nat]) sample_heap
     = Return self')
  /\ Backtester.stocks (Backtester.mk [1%nat; 2%nat; 0%nat]
                          (Backtester.profit_ratios (Backtester.init []))
                          (Backtester.stop_ratios (Backtester.init []))
                          [] [] [] [] [1%nat])
     = [1%nat; 2%nat; 0%nat].
Proof.
  split.
  - apply (proj1 (execute_all_or_nothing (Backtester.init [0%nat; 1%nat])
                    sample_heap)).
    intros r [<-|[<-|[]]]; vm_compute; discriminate.
  - refine (proj1 (proj2 (proj1 (proj2 (execute_all_or_nothing
              (Backtester.init [1%nat; 2%nat; 0%nat]) sample_heap))
              division_by_zero _ _))).
    vm_compute. reflexivity.
Defined.

(** ** [set_ratios] *)

Lemma nth_error_middle {A : Type} (pre l : list A) (x : A) :
  nth_error (pre ++ x :: l) (length pre) = Some x.
Proof.
  rewrite nth_error_app2 by lia. now rewrite Nat.sub_diag.
Qed.

Lemma set_ratios_body_at (self : Backtester.t) (h : Heap) (i : nat)
    (r : ref) (p s a : Q) :
  nth_error (Backtester.stocks self) i = Some r ->
  nth_error (Backtester.optimal_profit_ratio self) i = Some p ->
  nth_error (Backtester.optimal_risk_ratio self) i = Some s ->
  nth_error (Backtester.winrates self) i = Some a ->
  Backtester.set_ratios_body self h i = Return (apply_outcome h r p s a).
Proof.
  intros Hr Hp Hs Ha. unfold Backtester.set_ratios_body, py_getitem.
  now rewrite Hr, Hp, Hs, Ha.
Qed.

Lemma outcomes_for_lengths (self : Backtester.t) (h : Heap) rs ps ss accs ms :
  outcomes_for self h rs ps ss accs ms ->
  length ps = length rs /\ length ss = length rs
  /\ length accs = length rs /\ length ms = length rs.
Proof.
  induction 1; simpl; [auto|]. intuition congruence.
Qed.

Lemma set_ratios_loop_outcomes (self0 : Backtester.t) (h0 : Heap)
    rs ps ss accs ms :
  outcomes_for self0 h0 rs ps ss accs ms ->
  forall (self : Backtester.t) pre_r pre_p pre_s pre_a h,
    length pre_p = length pre_r ->
    length pre_s = length pre_r ->
    length pre_a = length pre_r ->
    Backtester.stocks self = pre_r ++ rs ->
    Backtester.optimal_profit_ratio self = pre_p ++ ps ->
    Backtester.optimal_risk_ratio self = pre_s ++ ss ->
    Backtester.winrates self = pre_a ++ accs ->
    Backtester.set_ratios_loop self (seq (length pre_r) (length rs)) h
    = Return (apply_all h rs ps ss accs).
Proof.
  induction 1 as [|r rs b p ps s ss a accs m ms Hb Hout Hrest IH];
    intros self pre_r pre_p pre_s pre_a h Lp Ls La Hr Hp Hs Ha;
    [reflexivity|].
  cbn [length seq Backtester.set_ratios_loop apply_all].
  rewrite (set_ratios_body_at self h (length pre_r) r p s a).
  - specialize (IH self (pre_r ++ [r]) (pre_p ++ [p]) (pre_s ++ [s])
                  (pre_a ++ [a]) (apply_outcome h r p s a)).
    rewrite !length_app in IH. simpl in IH.
    rewrite !Nat.add_1_r in IH. apply IH; try lia;
      rewrite <- app_assoc; assumption.
  - rewrite Hr. apply nth_error_middle.
  - rewrite Hp, <- Lp. apply nth_error_middle.
  - rewrite Hs, <- Ls. apply nth_error_middle.
  - rewrite Ha, <- La. apply nth_error_middle.
Qed.

Lemma apply_outcome_spec (h : Heap) (r : ref) (p s a : Q) :
  ratio (apply_outcome h r p s a r) = p
  /\ stop_loss_percentage (apply_outcome h r p s a r) = s
  /\ winrate (apply_outcome h r p s a r) = a
  /\ (forall r', r' <> r -> apply_outcome h r p s a r' = h r')
  /\ (forall r', symbol (apply_outcome h r p s a r') = symbol (h r')
                 /\ data (apply_outcome h r p s a r') = data (h r')).
Proof.
  pose proof (setters_on_one_object h r p s a) as H. cbv zeta in H.
  destruct H as (H1 & H2 & H3 & H4 & H5 & H6).
  unfold apply_outcome. repeat split; auto;
    destruct (Nat.eq_dec r' r) as [->|Hne]; auto;
    now rewrite (H6 r' Hne).
Qed.

(** Each object of the list ends with the entries of its own search, also
    when it occurs more than once. *)
Lemma apply_all_spec (self0 : Backtester.t) (h0 : Heap) rs ps ss accs ms :
  outcomes_for self0 h0 rs ps ss accs ms ->
  forall h,
    (forall r, In r rs ->
       exists b,
         Backtester.grid_search self0 (data (h0 r)) = Ok b
         /\ Backtester.best_profit_ratio b
            = Some (ratio (apply_all h rs ps ss accs r))
         /\ Backtester.best_stop_ratio b
            = Some (stop_loss_percentage (apply_all h rs ps ss accs r))
         /\ Backtester.greatest_accuracy b
            = winrate (apply_all h rs ps ss accs r))
    /\ (forall r, ~ In r rs -> apply_all h rs ps ss accs r = h r)
    /\ (forall r, symbol (apply_all h rs ps ss accs r) = symbol (h r)
                  /\ data (apply_all h rs ps ss accs r) = data (h r)).
Proof.
  induction 1 as [|r rs b p ps s ss a accs m ms Hb Hout Hrest IH];
    intros h; cbn [apply_all].
  - repeat split; auto. intros r [].
  - destruct (IH (apply_outcome h r p s a)) as (Hin & Hnot & Hsame).
    destruct (apply_outcome_spec h r p s a)
      as (E1 & E2 & E3 & Eother & Efix).
    destruct Hout as (Op & Os & Oa & _).
    repeat split.
    + intros r0 Hr0.
      destruct (in_dec Nat.eq_dec r0 rs) as [Hi|Hni]; [now apply Hin|].
      destruct Hr0 as [<-|Hr0]; [|contradiction].
      exists b. rewrite (Hnot r Hni), E1, E2, E3. auto.
    + intros r0 Hr0. rewrite Hnot by (intros C; apply Hr0; now right).
      apply Eother. intros ->. apply Hr0. now left.
    + rewrite (proj1 (Hsame r0)). apply Efix.
    + rewrite (proj2 (Hsame r0)). apply Efix.
Qed.

(** [set_ratios] on the state a returning [execute] leaves. *)
Lemma set_ratios_result (self : Backtester.t) (h : Heap)
    (self' : Backtester.t) :
  Backtester.execute self h = Return self' ->
  exists h',
    Backtester.set_ratios self' h = Return h'
    /\ (forall r, In r (Backtester.stocks self') ->
          exists b,
            Backtester.grid_search self (data (h r)) = Ok b
            /\ Backtester.best_profit_ratio b = Some (ratio (h' r))
            /\ Backtester.best_stop_ratio b
               = Some (stop_loss_percentage (h' r))
            /\ Backtester.greatest_accuracy b = winrate (h' r))
    /\ (forall r, ~ In r (Backtester.stocks self') -> h' r = h r)
    /\ (forall r, symbol (h' r) = symbol (h r) /\ data (h' r) = data (h r)).
Proof.
  intros Hrun.
  destruct (execute_result _ _ _ Hrun) as (_ & _ & Hout & _).
  pose proof (apply_all_spec _ _ _ _ _ _ _ Hout h) as Hspec.
  unfold Backtester.set_ratios.
  destruct (Nat.eqb_spec (length (Backtester.optimal_profit_ratio self')) 0)
    as [Hz|Hnz].
  - exists h. split; [reflexivity|].
    inversion Hout as [Hr Hp Hs Ha Hm|]; subst.
    + repeat split; auto. intros r [].
    + match goal with H : _ :: _ = Backtester.optimal_profit_ratio self'
        |- _ => rewrite <- H in Hz; discriminate Hz end.
  - eexists. split; [|exact Hspec].
    exact (set_ratios_loop_outcomes _ _ _ _ _ _ _ Hout self' [] [] [] [] h
             eq_refl eq_refl eq_refl eq_refl eq_refl eq_refl eq_refl).
Qed.


(** X3. After an [execute] that returns, [set_ratios] returns as well: every
    tracked instrument then carries the profit ratio, stop ratio and
    win-rate of its own grid search, every other object is untouched, and
    no symbol or frame changes. *)
Theorem set_ratios_after_execute (self : Backtester.t) (h : Heap)
    (self' : Backtester.t) :
  Backtester.execute self h = Return self' ->
  exists h',
    Backtester.set_ratios self' h = Return h'
    /\ (forall r, In r (Backtester.stocks self') ->
          exists b,
            Backtester.grid_search self (data (h r)) = Ok b
            /\ Backtester.best_profit_ratio b = Some (ratio (h' r))
            /\ Backtester.best_stop_ratio b
               = Some (stop_loss_percentage (h' r))
            /\ Backtester.greatest_accuracy b = winrate (h' r))
    /\ (forall r, ~ In r (Backtester.stocks self') -> h' r = h r)
    /\ (forall r, symbol (h' r) = symbol (h r) /\ data (h' r) = data (h r)).
Proof. exact (set_ratios_result self h self'). Qed.

Lemma set_ratios_after_execute_witness :
  exists h',
    Backtester.set_ratios
      (Backtester.mk [0%nat]
         (Backtester.profit_ratios (Backtester.init []))
         (Backtester.stop_ratios (Backtester.init []))
         [2] [1] [1] [200] [1%nat]) sample_heap = Return h'
    /\ ratio (h' 0%nat) = 2.
Proof.
  destruct (set_ratios_after_execute (Backtester.init [0%nat; 1%nat])
              sample_heap
              (Backtester.mk [0%nat]
                 (Backtester.profit_ratios (Backtester.init []))
                 (Backtester.stop_ratios (Backtester.init []))
                 [2] [1] [1] [200] [1%nat]))
    as (h' & Hset & Hin & _).
  - vm_compute. reflexivity.
  - exists h'. split; [exact Hset|].
    destruct (Hin 0%nat (or_introl eq_refl)) as (b & Hb & Hp & _).
    vm_compute in Hb. injection Hb as <-. simpl in Hp.
    now injection Hp as <-.
Defined.





(** ** [remove_stock] *)

Lemma py_pop_in_range {A : Type} (l : list A) (index : Z) :
  (- Z.of_nat (length l) <= index < Z.of_nat (length l))%Z ->
  py_pop l index
  = Ok (delete_at (Z.to_nat (index mod Z.of_nat (length l))) l).
Proof.
  intros Hr. unfold py_pop.
  destruct (Z.leb_spec 0 index) as [Hnn|Hneg]; cbn [andb].
  - destruct (Z.ltb_spec index (Z.of_nat (length l))); [|lia].
    now rewrite Z.mod_small by lia.
  - destruct (Z.leb_spec (- Z.of_nat (length l)) index); [|lia].
    destruct (Z.ltb_spec index 0); [|lia]. cbn [andb].
    f_equal. f_equal. f_equal.
    rewrite <- (Z.mod_add index 1) by lia.
    rewrite Z.mod_small; lia.
Qed.

Lemma py_pop_out_of_range {A : Type} (l : list A) (index : Z) :
  ~ (- Z.of_nat (length l) <= index < Z.of_nat (length l))%Z ->
  exists e, py_pop l index = Raise e /\ class_of e = IndexError.
Proof.
  intros Hr. unfold py_pop.
  destruct (Z.leb_spec 0 index); cbn [andb].
  - destruct (Z.ltb_spec index (Z.of_nat (length l))); [lia|].
    destruct (Z.leb_spec (- Z.of_nat (length l)) index); cbn [andb].
    + destruct (Z.ltb_spec index 0); [lia|].
      destruct l; eexists; split; reflexivity.
    + destruct l; eexists; split; reflexivity.
  - destruct (Z.leb_spec (- Z.of_nat (length l)) index); [lia|].
    cbn [andb]. destruct l; eexists; split; reflexivity.
Qed.

(** X5. On outcome lists of one common length [n], [remove_stock] is all or
    nothing: an index from [-n] to [n - 1] removes the entry at the same
    position (counted from the end when negative) of each of the four
    lists, and any other index raises [IndexError] with nothing changed.
    The tracked instruments are never touched. *)
Theorem remove_stock_all_or_nothing (self : Backtester.t) (index : Z)
    (n : nat) :
  outcome_lengths self n ->
  ((- Z.of_nat n <= index < Z.of_nat n)%Z ->
   let i := Z.to_nat (index mod Z.of_nat n) in
   Backtester.remove_stock self index
   = Return (Backtester.mk (Backtester.stocks self)
               (Backtester.profit_ratios self) (Backtester.stop_ratios self)
               (delete_at i (Backtester.optimal_profit_ratio self))
               (delete_at i (Backtester.optimal_risk_ratio self))
               (delete_at i (Backtester.winrates self))
               (delete_at i (Backtester.money_made self))
               (Backtester.remove_stocks self)))
  /\ (~ (- Z.of_nat n <= index < Z.of_nat n)%Z ->
      exists e,
        Backtester.remove_stock self index = Raised e self
        /\ class_of e = IndexError).
Proof.
  intros (H1 & H2 & H3 & H4). split.
  - intros Hr. cbv zeta. unfold Backtester.remove_stock.
    rewrite !py_pop_in_range by (rewrite ?H1, ?H2, ?H3, ?H4; exact Hr).
    now rewrite H1, H2, H3, H4.
  - intros Hr. unfold Backtester.remove_stock.
    destruct (py_pop_out_of_range (Backtester.winrates self) index)
      as (e & -> & Hc); [now rewrite H3|].
    now exists e.
Qed.

Lemma remove_stock_all_or_nothing_witness :
  Backtester.remove_stock
    (Backtester.mk [0%nat; 1%nat] [] [] [2; 3] [1; 1] [1; 1] [200; 300] [])
    (-1)
  = Return (Backtester.mk [0%nat; 1%nat] [] [] [2] [1] [1] [200] [])
  /\ exists e,
       Backtester.remove_stock
         (Backtester.mk [0%nat; 1%nat] [] [] [2; 3] [1; 1] [1; 1]
            [200; 300] []) 2
       = Raised e
           (Backtester.mk [0%nat; 1%nat] [] [] [2; 3] [1; 1] [1; 1]
              [200; 300] [])
       /\ class_of e = IndexError.
Proof.
  split.
  - apply (proj1 (remove_stock_all_or_nothing
                    (Backtester.mk [0%nat; 1%nat] [] [] [2; 3] [1; 1] [1; 1]
                       [200; 300] []) (-1) 2 (conj eq_refl (conj eq_refl
                       (conj eq_refl eq_refl))))).
    simpl. lia.
  - apply (proj2 (remove_stock_all_or_nothing
                    (Backtester.mk [0%nat; 1%nat] [] [] [2; 3] [1; 1] [1; 1]
                       [200; 300] []) 2 2 (conj eq_refl (conj eq_refl
                       (conj eq_refl eq_refl))))).
    simpl. lia.
Defined.

Lemma delete_at_last {A : Type} (l : list A) (x : A) :
  delete_at (length l) (l ++ [x]) = l.
Proof. induction l as [|y l IH]; simpl; [reflexivity|now rewrite IH]. Qed.

Lemma py_pop_last {A : Type} (l : list A) (x : A) :
  py_pop (l ++ [x]) (-1) = Ok l.
Proof.
  unfold py_pop. rewrite length_app, Nat.add_1_r, Nat2Z.inj_succ.
  cbn [Z.leb Z.compare andb].
  destruct (Z.leb_spec (- Z.succ (Z.of_nat (length l))) (-1)); [|lia].
  cbn [Z.ltb Z.compare andb].
  replace (Z.to_nat (-1 + Z.succ (Z.of_nat (length l)))) with (length l)
    by lia.
  now rewrite delete_at_last.
Qed.

(** X6. [add_stock] of a viable instrument followed by [remove_stock(-1)]
    is a round trip on the backtester: the second call removes exactly the
    outcome the first call appended. (The configuration written into the
    instrument by [add_stock] stays.) *)
Theorem add_stock_then_remove_last (self s1 : Backtester.t) (h h1 : Heap)
    (stock : ref) :
  viable self h stock = true ->
  Backtester.add_stock self h stock = Return (s1, h1) ->
  Backtester.remove_stock s1 (-1) = Return self.
Proof.
  intros Hv Hadd. apply add_stock_runs_add_data in Hadd.
  unfold viable in Hv.
  destruct (Backtester.grid_search self (data (h stock))) as [b| |] eqn:Hb;
    try discriminate.
  destruct (add_data_viable _ _ _ _ Hb) as (p & s & _ & _ & Ha).
  { intros C. apply Qeq_bool_iff in C. rewrite C in Hv. discriminate. }
  rewrite Ha in Hadd. injection Hadd as <-.
  unfold Backtester.remove_stock, Backtester.append_outcome.
  cbn [Backtester.winrates Backtester.optimal_profit_ratio
       Backtester.optimal_risk_ratio Backtester.money_made
       Backtester.stocks Backtester.profit_ratios Backtester.stop_ratios
       Backtester.remove_stocks].
  rewrite !py_pop_last. now destruct self.
Qed.

Lemma add_stock_then_remove_last_witness :
  Backtester.remove_stock
    (Backtester.append_outcome (Backtester.init [0%nat]) 2 1 1 200) (-1)
  = Return (Backtester.init [0%nat]).
Proof.
  apply (add_stock_then_remove_last (Backtester.init [0%nat]) _
           sample_heap
           (apply_outcome sample_heap 0%nat 2 1 1) 0%nat).
  - vm_compute. reflexivity.
  - reflexivity.
Defined.

(** ** What the grid search records *)

Lemma search_recorded (stock_data : DataFrame) (signals : list nat)
    (stops profits : list Q) (pairs : list (Q * Q)) :
  (forall sp, In sp pairs -> In (fst sp) stops /\ In (snd sp) profits) ->
  forall b b',
    recorded_from stock_data signals stops profits b ->
    Spec.search stock_data signals pairs b = Ok b' ->
    recorded_from stock_data signals stops profits b'.
Proof.
  induction pairs as [|sp pairs IH]; intros Hin b b' Hb Hrun;
    simpl in Hrun.
  - now injection Hrun as <-.
  - destruct (Backtester.trial stock_data signals (fst sp) (snd sp))
      as [r| |] eqn:Et; simpl in Hrun; try discriminate.
    eapply IH; [| |exact Hrun].
    + intros sp' H. apply Hin. now right.
    + unfold Spec.select.
      destruct (Qgtb (fst r) (Backtester.greatest_accuracy b)
                || Qgeb (snd r) (Backtester.greatest_money b));
        [|exact Hb].
      right. exists (snd sp), (fst sp). cbn.
      destruct (Hin sp (or_introl eq_refl)) as [Hs Hp].
      repeat split; auto. rewrite Et. now destruct r.
Qed.

Lemma cross_product_in (stops profits : list Q) (sp : Q * Q) :
  In sp (Spec.cross_product stops profits) ->
  In (fst sp) stops /\ In (snd sp) profits.
Proof.
  unfold Spec.cross_product. intros H.
  apply in_flat_map in H. destruct H as (stop & Hs & H).
  apply in_map_iff in H. destruct H as (profit & <- & Hp). now split.
Qed.

Lemma grid_search_recorded (self : Backtester.t) (stock_data : DataFrame)
    (b : Backtester.best) :
  Backtester.grid_search self stock_data = Ok b ->
  recorded_from stock_data (signals_of stock_data)
    (Backtester.stop_ratios self) (Backtester.profit_ratios self) b.
Proof.
  intros H. unfold Backtester.grid_search in H.
  rewrite for_stop_search in H.
  eapply search_recorded; [|left; reflexivity|exact H].
  apply cross_product_in.
Qed.

(** X7. What a completed grid search records is consistent: unless no trial
    ever replaced the initial state, the recorded profit and stop ratio are
    entries of the two grids, and the recorded win-rate and money are those
    of the trial of exactly that pair. In particular the recorded win-rate
    lies between 0 and 1. *)
Theorem grid_search_records_a_trial (self : Backtester.t)
    (stock_data : DataFrame) (b : Backtester.best) :
  Backtester.grid_search self stock_data = Ok b ->
  b <> Backtester.best0 ->
  exists p s,
    Backtester.best_profit_ratio b = Some p
    /\ Backtester.best_stop_ratio b = Some s
    /\ In p (Backtester.profit_ratios self)
    /\ In s (Backtester.stop_ratios self)
    /\ Backtester.trial stock_data (signals_of stock_data) s p
       = Ok (Backtester.greatest_accuracy b, Backtester.greatest_money b)
    /\ 0 <= Backtester.greatest_accuracy b
    /\ Backtester.greatest_accuracy b <= 1.
Proof.
  intros Hgs Hne.
  destruct (grid_search_recorded _ _ _ Hgs)
    as [->|(p & s & Hp & Hs & Is & Ip & Ht)]; [congruence|].
  exists p, s. repeat split; auto.
  - destruct (signals_of stock_data) as [|s0 sigs] eqn:Es.
    + rewrite trial_no_signals in Ht. discriminate.
    + destruct (trial_total stock_data (signals_of stock_data) s p
                  (signals_of_in_range stock_data))
        as (a & m & Ht' & Ha & _); [congruence|].
      rewrite Es in Ht'. rewrite Ht' in Ht. now injection Ht as <- _.
  - destruct (signals_of stock_data) as [|s0 sigs] eqn:Es.
    + rewrite trial_no_signals in Ht. discriminate.
    + destruct (trial_total stock_data (signals_of stock_data) s p
                  (signals_of_in_range stock_data))
        as (a & m & Ht' & _ & Ha); [congruence|].
      rewrite Es in Ht'. rewrite Ht' in Ht. now injection Ht as <- _.
Qed.

Lemma grid_search_records_a_trial_witness :
  exists p s,
    In p (Backtester.profit_ratios (Backtester.init []))
    /\ In s (Backtester.stop_ratios (Backtester.init []))
    /\ Backtester.trial frame_half (signals_of frame_half) s p
       = Ok (1 # 2, 199).
Proof.
  destruct (grid_search_records_a_trial (Backtester.init []) frame_half
              (Backtester.mkBest (1 # 2) 199 (Some 2) (Some 1)))
    as (p & s & _ & _ & Hp & Hs & Ht & _).
  - vm_compute. reflexivity.
  - discriminate.
  - exists p, s. auto.
Defined.

Lemma viable_accuracy (self : Backtester.t) (h : Heap) (r : ref)
    (b : Backtester.best) :
  Backtester.grid_search self (data (h r)) = Ok b ->
  viable self h r = true ->
  0 < Backtester.greatest_accuracy b /\ Backtester.greatest_accuracy b <= 1.
Proof.
  intros Hb Hv. unfold viable in Hv. rewrite Hb in Hv.
  apply negb_true_iff in Hv.
  destruct (grid_search_recorded _ _ _ Hb)
    as [->|(p & s & _ & _ & _ & _ & Ht)]; [discriminate Hv|].
  destruct (signals_of (data (h r))) as [|s0 sigs] eqn:Es.
  { rewrite trial_no_signals in Ht. discriminate. }
  destruct (trial_total (data (h r)) (signals_of (data (h r))) s p
              (signals_of_in_range _)) as (a & m & Ht' & H0 & H1);
    [congruence|].
  rewrite Es in Ht'. rewrite Ht' in Ht. injection Ht as -> _.
  split; [|exact H1].
  apply Qle_lteq in H0. destruct H0 as [H0|H0]; [exact H0|].
  symmetry in H0. apply Qeq_bool_iff in H0. congruence.
Qed.

Lemma outcomes_for_accuracies (self : Backtester.t) (h : Heap)
    rs ps ss accs ms :
  outcomes_for self h rs ps ss accs ms ->
  Forall (fun r => viable self h r = true) rs ->
  Forall (fun a => 0 < a /\ a <= 1) accs.
Proof.
  induction 1 as [|r rs b p ps s ss a accs m ms Hb Hout Hrest IH];
    intros Hv; [constructor|].
  inversion Hv as [|? ? Hr Hrs]; subst. constructor; [|now apply IH].
  destruct Hout as (_ & _ & <- & _). now apply (viable_accuracy self h r).
Qed.

(** X8. After an [execute] that returns, every recorded win-rate is
    positive and at most 1; and after the [set_ratios] that follows, so is
    the win-rate of every tracked instrument. *)
Theorem recorded_winrates_positive_at_most_one (self : Backtester.t)
    (h : Heap) (self' : Backtester.t) :
  Backtester.execute self h = Return self' ->
  Forall (fun a => 0 < a /\ a <= 1) (Backtester.winrates self')
  /\ exists h',
       Backtester.set_ratios self' h = Return h'
       /\ forall r, In r (Backtester.stocks self') ->
                    0 < winrate (h' r) /\ winrate (h' r) <= 1.
Proof.
  intros Hrun.
  destruct (execute_result _ _ _ Hrun) as (Hst & _ & Hout & _).
  split.
  - apply (outcomes_for_accuracies _ _ _ _ _ _ _ Hout).
    rewrite Hst. apply Forall_forall. intros r Hr.
    now apply filter_In in Hr.
  - destruct (set_ratios_result _ _ _ Hrun) as (h' & Hset & Hin & _).
    exists h'. split; [exact Hset|]. intros r Hr.
    destruct (Hin r Hr) as (b & Hb & _ & _ & <-).
    apply (viable_accuracy self h r b Hb).
    rewrite Hst in Hr. now apply filter_In in Hr.
Qed.

Lemma recorded_winrates_positive_at_most_one_witness :
  Forall (fun a => 0 < a /\ a <= 1) [1 # 2].
Proof.
  refine (proj1 (recorded_winrates_positive_at_most_one
                   (Backtester.init [0%nat])
                   (StockContainer.heap world_AAPL)
                   (StockContainer.backtester container_AAPL) _)).
  vm_compute. reflexivity.
Defined.

(** ** Raising the profit ratio never raises the win-rate *)

Lemma walk_forward_win_antitone (tp tp' sl : Q) (closes : list Q) :
  tp <= tp' ->
  Spec.walk_forward tp' sl closes = Spec.Win ->
  Spec.walk_forward tp sl closes = Spec.Win.
Proof.
  intros Hle. induction closes as [|c closes IH]; simpl; [discriminate|].
  destruct (Qle_bool tp' c) eqn:E'.
  - intros _. apply Qle_bool_iff in E'.
    assert (E : Qle_bool tp c = true)
      by (apply Qle_bool_iff; eapply Qle_trans; eauto).
    now rewrite E.
  - destruct (Qle_bool c sl); [discriminate|].
    intros H. destruct (Qle_bool tp c); [reflexivity|now apply IH].
Qed.

Lemma for_signals_wins_antitone (stock_data : DataFrame)
    (stop profit profit' : Q) (signals : list nat) :
  0 <= stop -> profit <= profit' ->
  Forall (fun bar => 0 <= EMA bar) stock_data ->
  Forall (fun s => (s < length stock_data)%nat) signals ->
  forall st st',
    (fst st' <= fst st)%Z ->
    exists w m w' m',
      Backtester.for_signals stock_data stop profit signals st = Ok (w, m)
      /\ Backtester.for_signals stock_data stop profit' signals st'
         = Ok (w', m')
      /\ (w' <= w)%Z.
Proof.
  intros Hstop Hprofit Hema Hrange.
  induction Hrange as [|s signals Hs _ IH]; intros st st' Hst.
  - exists (fst st), (snd st), (fst st'), (snd st').
    destruct st, st'; simpl in *. auto.
  - destruct (iloc_in_range _ _ Hs) as (bar & Hnth & _).
    cbn [Backtester.for_signals].
    rewrite (signal_body_walk_forward _ stop profit _ _ st Hnth).
    rewrite (signal_body_walk_forward _ stop profit' _ _ st' Hnth).
    cbn [bind]. apply IH.
    assert (Hsl : 0 <= stop * EMA bar).
    { apply Qmult_le_0_compat; [exact Hstop|].
      rewrite Forall_forall in Hema. apply Hema.
      eapply nth_error_In; eauto. }
    assert (Htp : profit * (stop * EMA bar) <= profit' * (stop * EMA bar))
      by (apply Qmult_le_compat_r; assumption).
    pose proof (walk_forward_win_antitone _ _ (stop * EMA bar)
                  (map Close (skipn s stock_data)) Htp) as Hwin.
    destruct (Spec.walk_forward (profit' * (stop * EMA bar))
                (stop * EMA bar) (map Close (skipn s stock_data)));
      [rewrite (Hwin eq_refl); simpl; lia| |];
      destruct (Spec.walk_forward (profit * (stop * EMA bar))
                  (stop * EMA bar) (map Close (skipn s stock_data)));
      simpl; lia.
Qed.

(** X9. What the comment on the selection rule takes for granted: for a
    fixed stop ratio that is not negative and a baseline that is nowhere
    negative, a higher profit ratio never gives a higher win-rate, because
    every signal that reaches the higher target has reached the lower one
    before. *)
Theorem accuracy_antitone_in_profit_ratio (stock_data : DataFrame)
    (stop profit profit' : Q) :
  signals_of stock_data <> [] ->
  0 <= stop -> profit <= profit' ->
  Forall (fun bar => 0 <= EMA bar) stock_data ->
  exists a m a' m',
    Backtester.trial stock_data (signals_of stock_data) stop profit
    = Ok (a, m)
    /\ Backtester.trial stock_data (signals_of stock_data) stop profit'
       = Ok (a', m')
    /\ a' <= a.
Proof.
  intros Hne Hstop Hprofit Hema.
  destruct (for_signals_wins_antitone stock_data stop profit profit'
              (signals_of stock_data) Hstop Hprofit Hema
              (signals_of_in_range stock_data) (0%Z, 0) (0%Z, 0))
    as (w & m & w' & m' & Hr & Hr' & Hle); [simpl; lia|].
  assert (Hpos : (0 < Z.of_nat (length (signals_of stock_data)))%Z).
  { destruct (signals_of stock_data); [congruence|].
    rewrite length_cons. lia. }
  exists (inject_Z w / inject_Z (Z.of_nat (length (signals_of stock_data)))),
    m,
    (inject_Z w' / inject_Z (Z.of_nat (length (signals_of stock_data)))),
    m'.
  unfold Backtester.trial. rewrite Hr, Hr'. cbn [bind fst snd].
  unfold py_truediv.
  destruct (Z.eqb_spec (Z.of_nat (length (signals_of stock_data))) 0);
    [lia|].
  repeat split. unfold Qdiv. apply Qmult_le_compat_r.
  - rewrite <- Zle_Qle. exact Hle.
  - apply Qinv_le_0_compat. change (inject_Z 0 <= inject_Z
      (Z.of_nat (length (signals_of stock_data)))).
    rewrite <- Zle_Qle. lia.
Qed.

Lemma accuracy_antitone_in_profit_ratio_witness :
  exists a m a' m',
    Backtester.trial frame_win (signals_of frame_win) 1 2 = Ok (a, m)
    /\ Backtester.trial frame_win (signals_of frame_win) 1 2.25
       = Ok (a', m')
    /\ a' <= a.
Proof.
  apply (accuracy_antitone_in_profit_ratio frame_win 1 2 2.25).
  - vm_compute. discriminate.
  - vm_compute. discriminate.
  - vm_compute. discriminate.
  - repeat constructor; vm_compute; discriminate.
Defined.

(** ** The frame built by [get_data] *)

Lemma ewm_from_length (a previous : Q) (values : list Q) :
  length (MACDStrategy.ewm_from a previous values) = length values.
Proof.
  revert previous. induction values as [|x values IH]; intros previous;
    simpl; [reflexivity|now rewrite IH].
Qed.

Lemma ewm_mean_length (span : Q) (values : list Q) :
  length (MACDStrategy.ewm_mean span values) = length values.
Proof.
  destruct values; simpl; [reflexivity|now rewrite ewm_from_length].
Qed.

(** A weight between 0 and 1 keeps the mean between the bounds of the
    values. *)
Lemma ewm_from_bounds (a lo hi : Q) (values : list Q) :
  0 <= a -> a <= 1 ->
  forall previous,
    lo <= previous -> previous <= hi ->
    Forall (fun x => lo <= x /\ x <= hi) values ->
    Forall (fun y => lo <= y /\ y <= hi)
      (MACDStrategy.ewm_from a previous values).
Proof.
  intros Ha0 Ha1. induction values as [|x values IH];
    intros previous Hlo Hhi Hall; simpl; [constructor|].
  inversion Hall as [|? ? [Hx0 Hx1] Hrest]; subst.
  assert (Hy : lo <= (1 - a) * previous + a * x
               /\ (1 - a) * previous + a * x <= hi) by (split; nra).
  constructor; [exact Hy|]. now apply IH.
Qed.

Lemma ewm_mean_bounds (lo hi : Q) (values : list Q) :
  Forall (fun x => lo <= x /\ x <= hi) values ->
  Forall (fun y => lo <= y /\ y <= hi) (MACDStrategy.ewm_mean 100 values).
Proof.
  intros Hall. destruct values as [|x values]; simpl; [constructor|].
  inversion Hall as [|? ? Hx Hrest]; subst.
  constructor; [exact Hx|].
  apply ewm_from_bounds; try tauto; unfold MACDStrategy.alpha;
    vm_compute; discriminate.
Qed.

Lemma diff_from_nth (values : list Q) :
  forall previous j a b,
    nth_error (previous :: values) j = Some a ->
    nth_error (previous :: values) (S j) = Some b ->
    nth j (MACDStrategy.diff_from previous values) None = Some (b - a).
Proof.
  induction values as [|x values IH]; intros previous j a b Ha Hb.
  - destruct j; simpl in Hb; [discriminate|]. now destruct j.
  - destruct j as [|j]; simpl in Ha, Hb |- *.
    + now injection Ha as <-; injection Hb as <-.
    + now apply IH.
Qed.

Lemma diff_nth (values : list Q) :
  nth 0 (MACDStrategy.diff values) None = None
  /\ forall j a b,
       nth_error values j = Some a ->
       nth_error values (S j) = Some b ->
       nth (S j) (MACDStrategy.diff values) None = Some (b - a).
Proof.
  destruct values as [|x values]; simpl.
  - split; [reflexivity|]. intros [|j] a b H; discriminate H.
  - split; [reflexivity|]. intros j a b Ha Hb.
    now apply diff_from_nth.
Qed.

Lemma indexed_column_nth {A : Type} (f : nat -> A) (n i : nat) (d : A) :
  (i < n)%nat ->
  nth_error (map f (seq 0 n)) i = Some (f i)
  /\ nth i (map f (seq 0 n)) d = f i.
Proof.
  intros Hi.
  assert (H : nth_error (map f (seq 0 n)) i = Some (f i)).
  { apply map_nth_error. rewrite nth_error_seq.
    destruct (Nat.ltb_spec i n); [reflexivity|lia]. }
  split; [exact H|]. now apply nth_error_nth.
Qed.

(** Row [i] of the frame: the price, the two series aligned on the index,
    the moving average, and the two 0/1 columns with their differences. *)
Lemma get_data_row (close_prices : list Q)
    (macd_line macd_signal : list (option Q)) (i : nat) :
  (i < length close_prices)%nat ->
  let long := MACDStrategy.long_at close_prices macd_line macd_signal in
  let short := MACDStrategy.short_at close_prices macd_line macd_signal in
  nth_error (MACDStrategy.get_data close_prices macd_line macd_signal) i
  = Some (MACDStrategy.mkRow
            (nth i close_prices 0)
            (MACDStrategy.column macd_line i)
            (MACDStrategy.column macd_signal i)
            (nth i (MACDStrategy.ewm_mean 100 close_prices) 0)
            (MACDStrategy.where_ (long i))
            (match i with
             | O => None
             | S j => Some (MACDStrategy.where_ (long (S j))
                            - MACDStrategy.where_ (long j))
             end)
            (MACDStrategy.where_ (short i))
            (match i with
             | O => None
             | S j => Some (MACDStrategy.where_ (short (S j))
                            - MACDStrategy.where_ (short j))
             end)).
Proof.
  intros Hi long short. unfold MACDStrategy.get_data. cbv zeta.
  rewrite (proj1 (indexed_column_nth _ (length close_prices) i
                    (MACDStrategy.mkRow 0 None None 0 0 None 0 None) Hi)).
  f_equal.
  assert (Hdiff : forall g : nat -> Q,
             nth i (MACDStrategy.diff (map g (seq 0 (length close_prices))))
               None
             = match i with
               | O => None
               | S j => Some (g (S j) - g j)
               end).
  { intros g. destruct i as [|j].
    - apply diff_nth.
    - apply diff_nth.
      + apply indexed_column_nth; [exact 0|lia].
      + apply indexed_column_nth; [exact 0|lia]. }
  rewrite !Hdiff.
  rewrite !(proj2 (indexed_column_nth _ (length close_prices) i 0 Hi)).
  reflexivity.
Qed.

Lemma ewm_from_lower (a lo : Q) (values : list Q) :
  0 <= a -> a <= 1 ->
  forall previous,
    lo <= previous ->
    Forall (fun x => lo <= x) values ->
    Forall (fun y => lo <= y) (MACDStrategy.ewm_from a previous values).
Proof.
  intros Ha0 Ha1. induction values as [|x values IH];
    intros previous Hlo Hall; simpl; [constructor|].
  inversion Hall as [|? ? Hx Hrest]; subst.
  assert (Hy : lo <= (1 - a) * previous + a * x) by nra.
  constructor; [exact Hy|]. now apply IH.
Qed.

Lemma ewm_mean_lower (lo : Q) (values : list Q) :
  Forall (fun x => lo <= x) values ->
  Forall (fun y => lo <= y) (MACDStrategy.ewm_mean 100 values).
Proof.
  intros Hall. destruct values as [|x values]; simpl; [constructor|].
  inversion Hall as [|? ? Hx Hrest]; subst.
  constructor; [exact Hx|].
  apply ewm_from_lower; try assumption; unfold MACDStrategy.alpha;
    vm_compute; discriminate.
Qed.

Lemma get_data_length (close_prices : list Q)
    (macd_line macd_signal : list (option Q)) :
  length (MACDStrategy.get_data close_prices macd_line macd_signal)
  = length close_prices.
Proof.
  unfold MACDStrategy.get_data. now rewrite length_map, length_seq.
Qed.

Lemma get_data_row_in (close_prices : list Q)
    (macd_line macd_signal : list (option Q)) (r : MACDStrategy.Row) :
  In r (MACDStrategy.get_data close_prices macd_line macd_signal) ->
  exists i,
    (i < length close_prices)%nat
    /\ nth_error (MACDStrategy.get_data close_prices macd_line macd_signal)
         i = Some r.
Proof.
  intros Hin. apply In_nth_error in Hin. destruct Hin as (i & Hi).
  exists i. split; [|exact Hi].
  rewrite <- (get_data_length close_prices macd_line macd_signal).
  apply nth_error_Some. congruence.
Qed.

(** X10. The frame of [get_data] has one row per closing price, its [Close]
    column is the list of prices, and its [EMA] column stays between any
    two bounds of the prices: it is positive as soon as all prices are. *)
Theorem get_data_ema_between_prices (close_prices : list Q)
    (macd_line macd_signal : list (option Q)) (lo hi : Q) :
  Forall (fun x => lo <= x /\ x <= hi) close_prices ->
  length (MACDStrategy.get_data close_prices macd_line macd_signal)
  = length close_prices
  /\ map MACDStrategy.Close
       (MACDStrategy.get_data close_prices macd_line macd_signal)
     = close_prices
  /\ Forall (fun r => lo <= MACDStrategy.EMA r /\ MACDStrategy.EMA r <= hi)
       (MACDStrategy.get_data close_prices macd_line macd_signal).
Proof.
  intros Hall. split; [apply get_data_length|]. split.
  - apply nth_error_ext. intros i.
    rewrite nth_error_map.
    destruct (Nat.ltb_spec i (length close_prices)) as [Hi|Hi].
    + rewrite (get_data_row _ macd_line macd_signal i Hi). simpl.
      symmetry. now apply nth_error_nth'.
    + rewrite (proj2 (nth_error_None close_prices i) Hi).
      replace (nth_error (MACDStrategy.get_data close_prices macd_line
                            macd_signal) i) with (@None MACDStrategy.Row);
        [reflexivity|].
      symmetry. apply nth_error_None. now rewrite get_data_length.
  - apply Forall_forall. intros r Hr.
    destruct (get_data_row_in _ _ _ _ Hr) as (i & Hi & Hrow).
    rewrite (get_data_row _ macd_line macd_signal i Hi) in Hrow.
    injection Hrow as <-. cbn [MACDStrategy.EMA].
    pose proof (ewm_mean_bounds lo hi close_prices Hall) as Hb.
    rewrite Forall_forall in Hb. apply Hb. apply nth_In.
    now rewrite ewm_mean_length.
Qed.

Lemma get_data_ema_between_prices_witness :
  Forall (fun r => 100 <= MACDStrategy.EMA r /\ MACDStrategy.EMA r <= 104)
    (MACDStrategy.get_data [100; 102; 101; 104] [] []).
Proof.
  apply (get_data_ema_between_prices [100; 102; 101; 104] [] [] 100 104).
  repeat constructor; vm_compute; discriminate.
Defined.

(** ** Where the signals of a [get_data] frame are *)

Lemma index_where_in (mask : Bar -> bool) (rows : DataFrame) :
  forall start i,
    In i (index_where mask start rows)
    <-> exists b, (start <= i)%nat
                  /\ nth_error rows (i - start) = Some b
                  /\ mask b = true.
Proof.
  induction rows as [|b rows IH]; intros start i; simpl.
  - split; [tauto|]. intros (b & _ & H & _).
    destruct (i - start)%nat; discriminate H.
  - assert (Hstep : In i (index_where mask (S start) rows)
                    <-> exists b', (S start <= i)%nat
                                   /\ nth_error rows (i - S start) = Some b'
                                   /\ mask b' = true) by apply IH.
    destruct (mask b) eqn:Eb; simpl; rewrite Hstep; split.
    + intros [<-|(b' & Hle & Hn & Hm)].
      * exists b. rewrite Nat.sub_diag. auto.
      * exists b'. repeat split; [lia| |exact Hm].
        replace (i - start)%nat with (S (i - S start)) by lia. exact Hn.
    + intros (b' & Hle & Hn & Hm).
      destruct (Nat.eq_dec start i) as [E|Hne]; [now left|right].
      exists b'. repeat split; [lia| |exact Hm].
      replace (i - start)%nat with (S (i - S start)) in Hn by lia.
      exact Hn.
    + intros (b' & Hle & Hn & Hm).
      exists b'. repeat split; [lia| |exact Hm].
      replace (i - start)%nat with (S (i - S start)) by lia. exact Hn.
    + intros (b' & Hle & Hn & Hm).
      destruct (Nat.eq_dec start i) as [E|Hne].
      * subst i. rewrite Nat.sub_diag in Hn. simpl in Hn.
        injection Hn as <-. congruence.
      * exists b'. repeat split; [lia| |exact Hm].
        replace (i - start)%nat with (S (i - S start)) in Hn by lia.
        exact Hn.
Qed.

Lemma signals_of_iff (stock_data : DataFrame) (i : nat) :
  In i (signals_of stock_data)
  <-> exists bar, nth_error stock_data i = Some bar
                  /\ long_position_is_one bar = true.
Proof.
  unfold signals_of. rewrite index_where_in. rewrite Nat.sub_0_r.
  split; intros (b & H); exists b; intuition lia.
Qed.

Lemma where_diff_is_one (now before : bool) :
  Qeq_bool (MACDStrategy.where_ now - MACDStrategy.where_ before) 1
  = now && negb before.
Proof. now destruct now, before. Qed.

Lemma long_condition_close_above (close ema : Q) (macd signal : option Q) :
  MACDStrategy.long_condition close ema macd signal = true -> ema < close.
Proof.
  unfold MACDStrategy.long_condition, Qgtb. intros H.
  apply andb_true_iff in H. destruct H as [_ H].
  apply negb_true_iff in H. apply Qnot_le_lt. intros C.
  apply Qle_bool_iff in C. congruence.
Qed.

(** The signals of the frame, in terms of the long condition. *)
Lemma get_data_signal_iff (close_prices : list Q)
    (macd_line macd_signal : list (option Q)) (i : nat) :
  In i (signals_of
          (map MACDStrategy.to_bar
             (MACDStrategy.get_data close_prices macd_line macd_signal)))
  <-> exists j,
        i = S j /\ (S j < length close_prices)%nat
        /\ MACDStrategy.long_at close_prices macd_line macd_signal (S j)
           = true
        /\ MACDStrategy.long_at close_prices macd_line macd_signal j
           = false.
Proof.
  rewrite signals_of_iff. split.
  - intros (bar & Hn & Hone). rewrite nth_error_map in Hn.
    destruct (nth_error (MACDStrategy.get_data close_prices macd_line
                           macd_signal) i) as [row|] eqn:Er;
      [|discriminate].
    injection Hn as <-.
    assert (Hi : (i < length close_prices)%nat).
    { rewrite <- (get_data_length close_prices macd_line macd_signal).
      apply nth_error_Some. congruence. }
    rewrite (get_data_row _ macd_line macd_signal i Hi) in Er.
    injection Er as <-.
    unfold long_position_is_one, MACDStrategy.to_bar in Hone.
    cbn [Long_Position MACDStrategy.Long_Position] in Hone.
    destruct i as [|j]; [discriminate|].
    rewrite where_diff_is_one in Hone. apply andb_true_iff in Hone.
    destruct Hone as [H1 H2]. apply negb_true_iff in H2.
    exists j. auto.
  - intros (j & -> & Hi & H1 & H2).
    eexists. rewrite nth_error_map.
    rewrite (get_data_row _ macd_line macd_signal (S j) Hi).
    split; [reflexivity|].
    unfold long_position_is_one, MACDStrategy.to_bar.
    cbn [Long_Position MACDStrategy.Long_Position].
    rewrite where_diff_is_one, H1, H2. reflexivity.
Qed.

(** X11. Row [i] of a [get_data] frame is an entry signal for the
    backtester exactly when it is not the first row, the long condition
    holds at row [i] and fails at row [i - 1]. Hence two consecutive rows
    are never both signals, and at every signal the close is above the
    moving average. *)
Theorem get_data_signals (close_prices : list Q)
    (macd_line macd_signal : list (option Q)) :
  let frame := map MACDStrategy.to_bar
                 (MACDStrategy.get_data close_prices macd_line macd_signal)
  in
  (forall i,
     In i (signals_of frame)
     <-> exists j,
           i = S j /\ (S j < length close_prices)%nat
           /\ MACDStrategy.long_at close_prices macd_line macd_signal (S j)
              = true
           /\ MACDStrategy.long_at close_prices macd_line macd_signal j
              = false)
  /\ (forall i, In i (signals_of frame) -> ~ In (S i) (signals_of frame))
  /\ (forall i bar, In i (signals_of frame) ->
                    nth_error frame i = Some bar -> EMA bar < Close bar).
Proof.
  cbv zeta. split; [apply get_data_signal_iff|]. split.
  - intros i Hi Hsi. apply get_data_signal_iff in Hi, Hsi.
    destruct Hi as (j & -> & _ & Hj & _).
    destruct Hsi as (j' & E & _ & _ & Hj'). injection E as <-.
    congruence.
  - intros i bar Hi Hbar. apply get_data_signal_iff in Hi.
    destruct Hi as (j & -> & Hlt & Hj & _).
    rewrite nth_error_map,
      (get_data_row _ macd_line macd_signal (S j) Hlt) in Hbar.
    injection Hbar as <-. cbn.
    exact (long_condition_close_above _ _ _ _ Hj).
Qed.

Lemma get_data_signals_witness :
  ~ In 2%nat
      (signals_of
         (map MACDStrategy.to_bar
            (MACDStrategy.get_data [100; 102; 101; 104]
               [None; Some (-1); Some (-1); Some (-1)]
               [None; Some (-2); Some 0; Some (-2)]))).
Proof.
  apply (proj1 (proj2 (get_data_signals [100; 102; 101; 104]
                         [None; Some (-1); Some (-1); Some (-1)]
                         [None; Some (-2); Some 0; Some (-2)])) 1%nat).
  vm_compute. auto.
Defined.

(** X12. Between [get_data] and the grid search: in a frame built from
    prices that are not negative, under any stop ratio of at most 1 (all
    those of the grid), the stop level at an entry signal lies strictly
    below the close of the signal row. So the amount a stopped-out signal
    subtracts is positive, and no signal is stopped out on its own row. *)
Theorem signal_close_above_stop_level (close_prices : list Q)
    (macd_line macd_signal : list (option Q)) (stop : Q) (i : nat)
    (bar : Bar) :
  Forall (fun x => 0 <= x) close_prices ->
  stop <= 1 ->
  In i (signals_of
          (map MACDStrategy.to_bar
             (MACDStrategy.get_data close_prices macd_line macd_signal))) ->
  nth_error (map MACDStrategy.to_bar
               (MACDStrategy.get_data close_prices macd_line macd_signal)) i
  = Some bar ->
  0 < Close bar - Backtester.get_stop_loss stop (EMA bar)
  /\ Qle_bool (Close bar) (Backtester.get_stop_loss stop (EMA bar)) = false.
Proof.
  intros Hpos Hstop Hi Hbar. apply get_data_signal_iff in Hi.
  destruct Hi as (j & -> & Hlt & Hj & _).
  rewrite nth_error_map,
    (get_data_row _ macd_line macd_signal (S j) Hlt) in Hbar.
  injection Hbar as <-. cbn [Close EMA MACDStrategy.to_bar
    MACDStrategy.Close MACDStrategy.EMA].
  pose proof (long_condition_close_above _ _ _ _ Hj) as Habove.
  assert (Hema : 0 <= nth (S j) (MACDStrategy.ewm_mean 100 close_prices) 0).
  { pose proof (ewm_mean_lower 0 close_prices Hpos) as Hb.
    rewrite Forall_forall in Hb. apply Hb. apply nth_In.
    now rewrite ewm_mean_length. }
  unfold Backtester.get_stop_loss.
  assert (H : stop * nth (S j) (MACDStrategy.ewm_mean 100 close_prices) 0
              < nth (S j) close_prices 0) by nra.
  split; [lra|].
  destruct (Qle_bool _ _) eqn:E; [|reflexivity].
  apply Qle_bool_iff in E. lra.
Qed.

Lemma signal_close_above_stop_level_witness :
  0 < 102 - Backtester.get_stop_loss 0.95 (1020504 # 10201).
Proof.
  refine (proj1 (signal_close_above_stop_level [100; 102; 101; 104]
                   [None; Some (-1); Some (-1); Some (-1)]
                   [None; Some (-2); Some 0; Some (-2)] 0.95 1
                   (mkBar 102 (1020504 # 10201) (Some 1)) _ _ _ _)).
  - repeat constructor; vm_compute; discriminate.
  - vm_compute. discriminate.
  - vm_compute. auto.
  - vm_compute. reflexivity.
Defined.

(** ** The decision of [MACD_Strategy.execute] *)

Lemma iloc_last_app {A : Type} (l : list A) (x : A) :
  MACDStrategy.iloc_last (l ++ [x]) = Ok x.
Proof. unfold MACDStrategy.iloc_last. now rewrite rev_unit. Qed.

Lemma split_last {A : Type} (l : list A) (k : nat) (x : A) :
  length l = S k -> nth_error l k = Some x -> l = firstn k l ++ [x].
Proof.
  intros Hlen Hn. rewrite <- (firstn_skipn k l) at 1. f_equal.
  rewrite (skipn_cons_nth_error _ _ _ Hn). f_equal.
  apply skipn_all2. lia.
Qed.

Lemma iloc_last_column {A B : Type} (f : A -> B) (l : list A) (k : nat)
    (x : A) :
  length l = S k -> nth_error l k = Some x ->
  MACDStrategy.iloc_last (map f l) = Ok (f x).
Proof.
  intros Hlen Hn. rewrite (split_last l k x Hlen Hn), map_app. simpl.
  apply iloc_last_app.
Qed.

Lemma truthy_where_diff (now before : bool) :
  MACDStrategy.truthy
    (Some (MACDStrategy.where_ now - MACDStrategy.where_ before))
  = xorb now before.
Proof. now destruct now, before. Qed.

(** X13. [execute] on the frame of [get_data], for a latest price that is
    not zero and at least one row: it calls [long_stock] when the long
    condition differs between the last two rows - on the day it starts and
    also on the day it ends - or when the frame has a single row (the NaN of
    [diff()] counts as true); otherwise it reports a short position when the
    short condition differs between the last two rows, and no signal when
    neither does. The order carries the strategy's stop-loss percentage and
    ratio, the wager [balance * 0.1 * winrate] and that wager divided by
    the price. *)
Theorem execute_on_last_change (o : MACD_Strategy) (balance current_cost : Q)
    (close_prices : list Q) (macd_line macd_signal : list (option Q))
    (k : nat) :
  ~ current_cost == 0 ->
  length close_prices = S k ->
  let df := MACDStrategy.get_data close_prices macd_line macd_signal in
  let long := MACDStrategy.long_at close_prices macd_line macd_signal in
  let short := MACDStrategy.short_at close_prices macd_line macd_signal in
  let changed (c : nat -> bool) :=
    match k with
    | O => true
    | S j => xorb (c (S j)) (c j)
    end in
  let notional := balance * 0.1 * winrate o in
  MACDStrategy.execute o balance current_cost df
  = Ok (if changed long
        then MACDStrategy.long_stock (symbol o) (notional / current_cost)
               (map MACDStrategy.EMA df) (stop_loss_percentage o) (ratio o)
               notional
        else if changed short then MACDStrategy.short_detected
             else MACDStrategy.no_signal (symbol o)).
Proof.
  intros Hcost Hlen. cbv zeta. unfold MACDStrategy.execute, py_float_div.
  destruct (Qeq_bool current_cost 0) eqn:E.
  { apply Qeq_bool_iff in E. contradiction. }
  cbn [bind].
  assert (Hk : (k < length close_prices)%nat) by lia.
  pose proof (get_data_row close_prices macd_line macd_signal k Hk) as Hrow.
  cbv zeta in Hrow.
  assert (Hl : length (MACDStrategy.get_data close_prices macd_line
                         macd_signal) = S k)
    by (now rewrite get_data_length).
  rewrite (iloc_last_column MACDStrategy.Long_Position _ k _ Hl Hrow).
  rewrite (iloc_last_column MACDStrategy.Short_Position _ k _ Hl Hrow).
  cbn [bind MACDStrategy.Long_Position MACDStrategy.Short_Position].
  destruct k as [|j]; [reflexivity|].
  rewrite !truthy_where_diff.
  destruct (xorb _ _); [reflexivity|]. cbn [bind].
  destruct (xorb _ _); reflexivity.
Qed.

Lemma execute_on_last_change_witness :
  MACDStrategy.execute (new_MACD_Strategy "AAPL" []) 1000 50
    (MACDStrategy.get_data [100; 102; 101]
       [None; Some (-1); Some (-1)] [None; Some (-2); Some 0])
  = Ok (MACDStrategy.long_stock "AAPL" (1000 * 0.1 * 1 / 50)
          (map MACDStrategy.EMA
             (MACDStrategy.get_data [100; 102; 101]
                [None; Some (-1); Some (-1)] [None; Some (-2); Some 0]))
          0.95 1.5 (1000 * 0.1 * 1)).
Proof.
  apply (execute_on_last_change (new_MACD_Strategy "AAPL" []) 1000 50
           [100; 102; 101] [None; Some (-1); Some (-1)]
           [None; Some (-2); Some 0] 2).
  - vm_compute. discriminate.
  - reflexivity.
Defined.

(** X14. What [execute] does before it looks at any signal: a latest price
    of zero raises [ZeroDivisionError] whatever the frame holds, and with a
    price that is not zero an empty frame raises the [IndexError] of
    [iloc[-1]]. *)
Theorem execute_errors (o : MACD_Strategy) (balance current_cost : Q)
    (df : list MACDStrategy.Row) :
  (current_cost == 0 ->
   MACDStrategy.execute o balance current_cost df
   = Raise float_division_by_zero)
  /\ (~ current_cost == 0 ->
      MACDStrategy.execute o balance current_cost []
      = Raise positional_indexer_out_of_bounds).
Proof.
  unfold MACDStrategy.execute, py_float_div. split; intros H.
  - apply Qeq_bool_iff in H. now rewrite H.
  - destruct (Qeq_bool current_cost 0) eqn:E; [|reflexivity].
    apply Qeq_bool_iff in E. contradiction.
Qed.

Lemma execute_errors_witness :
  MACDStrategy.execute (new_MACD_Strategy "AAPL" []) 1000 0
    (MACDStrategy.get_data [100; 102] [] [])
  = Raise float_division_by_zero
  /\ MACDStrategy.execute (new_MACD_Strategy "AAPL" []) 1000 50 []
     = Raise positional_indexer_out_of_bounds.
Proof.
  split.
  - apply (proj1 (execute_errors (new_MACD_Strategy "AAPL" []) 1000 0 _)).
    reflexivity.
  - apply (proj2 (execute_errors (new_MACD_Strategy "AAPL" []) 1000 50 [])).
    vm_compute. discriminate.
Defined.




(** ** [StockContainer]: symbols, objects and outcome lists *)







Lemma make_MACD_objects_spec (symbols : list string) :
  forall w objs w1,
    StockContainer.make_MACD_objects symbols w = (objs, w1) ->
    objs = seq (StockContainer.next w) (length symbols)
    /\ StockContainer.next w1
       = (StockContainer.next w + length symbols)%nat
    /\ StockContainer.account w1 = StockContainer.account w
    /\ (forall r, (r < StockContainer.next w)%nat ->
                  StockContainer.heap w1 r = StockContainer.heap w r)
    /\ Forall2 (fun r sym =>
                  StockContainer.heap w1 r
                  = new_MACD_Strategy sym (StockContainer.account w sym))
         objs symbols.
Proof.
  induction symbols as [|stock symbols IH]; intros w objs w1 H;
    cbn [StockContainer.make_MACD_objects] in H.
  - injection H as <- <-. repeat split; auto; simpl; lia.
  - destruct (StockContainer.make_MACD_objects symbols _)
      as [objs' w2] eqn:E.
    injection H as <- <-.
    destruct (IH _ _ _ E) as (Hobjs & Hnext & Hacc & Hkeep & Hall).
    cbn in Hobjs, Hnext, Hacc, Hkeep, Hall.
    repeat split.
    + simpl. now rewrite Hobjs.
    + rewrite Hnext. simpl. lia.
    + exact Hacc.
    + intros r Hr. rewrite Hkeep by lia.
      unfold heap_update. destruct (Nat.eqb_spec r (StockContainer.next w));
        [lia|reflexivity].
    + constructor; [|exact Hall].
      rewrite Hkeep by lia. unfold heap_update.
      now rewrite Nat.eqb_refl.
Qed.

Lemma py_remove_str_skip (x : string) (pre l : list string) :
  (forall y, In y pre -> y <> x) ->
  py_remove_str x (pre ++ x :: l) = Ok (pre ++ l).
Proof.
  induction pre as [|y pre IH]; intros Hpre; simpl.
  - now rewrite String.eqb_refl.
  - destruct (String.eqb_spec y x) as [E|_].
    + exfalso. apply (Hpre y); auto. now left.
    + rewrite IH; [reflexivity|]. intros z Hz. apply Hpre. now right.
Qed.

(** Dropping, object by object, the symbols of the objects whose symbol a
    predicate rejects leaves the symbols it accepts, in their order. *)
Lemma remove_symbols_filter (h : Heap) (p : string -> bool)
    (objs : list ref) :
  forall pre,
    (forall y, In y pre -> p y = true) ->
    StockContainer.remove_symbols h
      (filter (fun r => negb (p (symbol (h r)))) objs)
      (pre ++ map (fun r => symbol (h r)) objs)
    = Return (pre ++ filter p (map (fun r => symbol (h r)) objs)).
Proof.
  induction objs as [|r objs IH]; intros pre Hpre; [reflexivity|].
  cbn [filter map]. destruct (p (symbol (h r))) eqn:E; cbn [negb].
  - specialize (IH (pre ++ [symbol (h r)])).
    rewrite <- !app_assoc in IH. apply IH.
    intros y Hy. apply in_app_or in Hy.
    destruct Hy as [Hy|[<-|[]]]; auto.
  - cbn [StockContainer.remove_symbols]. rewrite py_remove_str_skip.
    + exact (IH pre Hpre).
    + intros y Hy ->. apply Hpre in Hy. congruence.
Qed.

Lemma map_filter_symbols (h : Heap) (p : string -> bool) (q : ref -> bool)
    (objs : list ref) :
  (forall r, In r objs -> q r = p (symbol (h r))) ->
  map (fun r => symbol (h r)) (filter q objs)
  = filter p (map (fun r => symbol (h r)) objs)
  /\ filter (fun r => negb (q r)) objs
     = filter (fun r => negb (p (symbol (h r)))) objs.
Proof.
  induction objs as [|r objs IH]; intros Hq; [now split|].
  destruct IH as [IH1 IH2]; [intros r' Hr'; apply Hq; now right|].
  cbn [filter map]. rewrite (Hq r (or_introl eq_refl)).
  destruct (p (symbol (h r))); cbn [negb map]; rewrite IH1, IH2; now split.
Qed.

Lemma forall2_objects (h : Heap) (account : string -> DataFrame)
    (objs : list ref) (symbols : list string) :
  Forall2 (fun r sym => h r = new_MACD_Strategy sym (account sym))
    objs symbols ->
  map (fun r => symbol (h r)) objs = symbols
  /\ forall r, In r objs -> data (h r) = account (symbol (h r)).
Proof.
  induction 1 as [|r sym objs symbols Hr _ [IH1 IH2]]; [now split|].
  split.
  - simpl. now rewrite Hr, IH1.
  - intros r' [<-|Hin]; [now rewrite Hr|now apply IH2].
Qed.

(** What the constructor of the container leaves behind when it returns. *)
Lemma container_init_result (symbols : list string)
    (w : StockContainer.World) (sc : StockContainer.t)
    (w' : StockContainer.World) :
  StockContainer.init symbols w = Return (sc, w') ->
  StockContainer.stocks sc
  = filter (symbol_viable (StockContainer.account w)) symbols
  /\ StockContainer.synced sc (StockContainer.heap w')
  /\ aligned (StockContainer.backtester sc)
  /\ forall r,
       In r (StockContainer.MACD_objects sc) ->
       exists b,
         Backtester.grid_search (Backtester.init [])
           (StockContainer.account w (symbol (StockContainer.heap w' r)))
         = Ok b
         /\ Backtester.best_profit_ratio b
            = Some (ratio (StockContainer.heap w' r))
         /\ Backtester.best_stop_ratio b
            = Some (stop_loss_percentage (StockContainer.heap w' r))
         /\ Backtester.greatest_accuracy b
            = winrate (StockContainer.heap w' r).
Proof.
  unfold StockContainer.init. intros Hinit.
  destruct (StockContainer.make_MACD_objects symbols w) as [objs w1] eqn:E.
  destruct (make_MACD_objects_spec _ _ _ _ E) as (_ & _ & Hacc & _ & Hall).
  destruct (forall2_objects _ _ _ _ Hall) as (Hsym & Hdata).
  unfold StockContainer.execute_backtester in Hinit.
  cbn [StockContainer.backtester StockContainer.stocks] in Hinit.
  destruct (Backtester.execute (Backtester.init objs)
              (StockContainer.heap w1)) as [bt|e bt|] eqn:He;
    try discriminate.
  destruct (execute_result _ _ _ He) as (Hst & Hrem & Hout & _).
  pose proof (execute_aligned _ _ _ He) as Hal.
  assert (Hv : forall r, In r objs ->
             viable (Backtester.init objs) (StockContainer.heap w1) r
             = symbol_viable (StockContainer.account w)
                 (symbol (StockContainer.heap w1 r))).
  { intros r Hr. unfold viable, symbol_viable. rewrite (Hdata r Hr).
    now rewrite (grid_search_same_grid (Backtester.init objs)
                   (Backtester.init []) _ eq_refl eq_refl). }
  cbn [Backtester.init Backtester.stocks] in Hst, Hrem.
  destruct (map_filter_symbols (StockContainer.heap w1)
              (symbol_viable (StockContainer.account w)) _ objs Hv)
    as (Hmap & Hfil).
  unfold ref in *. rewrite Hfil in Hrem. rewrite Hrem in Hinit.
  pose proof (remove_symbols_filter (StockContainer.heap w1)
                (symbol_viable (StockContainer.account w)) objs []
                (fun y (F : In y []) => match F with end)) as Hrs.
  cbn [app] in Hrs. unfold ref in *.
  rewrite Hsym in Hrs. rewrite Hrs in Hinit.
  destruct (set_ratios_result _ _ _ He) as (h' & Hset & Hin & _ & Hfix).
  rewrite Hset in Hinit. injection Hinit as <- <-.
  cbn [StockContainer.stocks StockContainer.backtester
       StockContainer.heap StockContainer.set_heap].
  repeat split.
  - unfold StockContainer.synced, StockContainer.MACD_objects.
    cbn [StockContainer.stocks StockContainer.backtester].
    rewrite Hst, <- Hsym, <- Hmap. apply map_ext.
    intros r. apply Hfix.
  - apply Hal.
  - apply Hal.
  - apply Hal.
  - apply Hal.
  - unfold StockContainer.MACD_objects.
    cbn [StockContainer.backtester]. intros r Hr.
    destruct (Hin r Hr) as (b & Hb & Hp & Hs & Ha).
    exists b. repeat split; auto.
    rewrite (proj1 (Hfix r)). rewrite <- Hdata.
    + now rewrite (grid_search_same_grid (Backtester.init [])
                     (Backtester.init objs) _ eq_refl eq_refl).
    + rewrite Hst in Hr. now apply filter_In in Hr.
Qed.

(** X17. When the constructor of [StockContainer] returns: the tracked
    symbols are the given symbols whose frame has a viable configuration,
    in their order; symbols and strategy objects go together index by
    index; the backtester's outcome lists are aligned with them; and every
    tracked strategy carries the profit ratio, stop ratio and win-rate of
    the grid search over its own frame. *)
Theorem container_init_consistent (symbols : list string)
    (w : StockContainer.World) (sc : StockContainer.t)
    (w' : StockContainer.World) :
  StockContainer.init symbols w = Return (sc, w') ->
  StockContainer.stocks sc
  = filter (symbol_viable (StockContainer.account w)) symbols
  /\ StockContainer.synced sc (StockContainer.heap w')
  /\ aligned (StockContainer.backtester sc)
  /\ forall r,
       In r (StockContainer.MACD_objects sc) ->
       exists b,
         Backtester.grid_search (Backtester.init [])
           (StockContainer.account w (symbol (StockContainer.heap w' r)))
         = Ok b
         /\ Backtester.best_profit_ratio b
            = Some (ratio (StockContainer.heap w' r))
         /\ Backtester.best_stop_ratio b
            = Some (stop_loss_percentage (StockContainer.heap w' r))
         /\ Backtester.greatest_accuracy b
            = winrate (StockContainer.heap w' r).
Proof. exact (container_init_result symbols w sc w'). Qed.

Lemma container_init_consistent_witness :
  exists sc w',
    StockContainer.init ["AAPL"; "TSLA"]%string world_empty
    = Return (sc, w')
    /\ StockContainer.stocks sc = ["AAPL"%string].
Proof.
  destruct (StockContainer.init ["AAPL"; "TSLA"]%string world_empty)
    as [[sc w']|e s|] eqn:E.
  - exists sc, w'. split; [reflexivity|].
    rewrite (proj1 (container_init_consistent _ _ _ _ E)).
    vm_compute. reflexivity.
  - vm_compute in E. discriminate E.
  - vm_compute in E. discriminate E.
Defined.

(** The constructor, once the first [execute] has returned. *)
Lemma container_init_steps (symbols : list string)
    (w w1 : StockContainer.World) (objs : list ref) (bt : Backtester.t) :
  StockContainer.make_MACD_objects symbols w = (objs, w1) ->
  Backtester.execute (Backtester.init objs) (StockContainer.heap w1)
  = Return bt ->
  exists h',
    StockContainer.init symbols w
    = Return (StockContainer.mk
                (filter (symbol_viable (StockContainer.account w)) symbols)
                bt,
              StockContainer.set_heap w1 h').
Proof.
  intros E He. unfold StockContainer.init. rewrite E.
  destruct (make_MACD_objects_spec _ _ _ _ E) as (_ & _ & Hacc & _ & Hall).
  destruct (forall2_objects _ _ _ _ Hall) as (Hsym & Hdata).
  unfold StockContainer.execute_backtester.
  cbn [StockContainer.backtester StockContainer.stocks]. rewrite He.
  destruct (execute_result _ _ _ He) as (Hst & Hrem & Hout & _).
  assert (Hv : forall r, In r objs ->
             viable (Backtester.init objs) (StockContainer.heap w1) r
             = symbol_viable (StockContainer.account w)
                 (symbol (StockContainer.heap w1 r))).
  { intros r Hr. unfold viable, symbol_viable. rewrite (Hdata r Hr).
    now rewrite (grid_search_same_grid (Backtester.init objs)
                   (Backtester.init []) _ eq_refl eq_refl). }
  cbn [Backtester.init Backtester.stocks] in Hst, Hrem.
  destruct (map_filter_symbols (StockContainer.heap w1)
              (symbol_viable (StockContainer.account w)) _ objs Hv)
    as (Hmap & Hfil).
  pose proof (remove_symbols_filter (StockContainer.heap w1)
                (symbol_viable (StockContainer.account w)) objs []
                (fun y (F : In y []) => match F with end)) as Hrs.
  cbn [app] in Hrs. unfold ref in *.
  rewrite Hfil in Hrem. rewrite Hrem.
  rewrite Hsym in Hrs. rewrite Hrs.
  destruct (set_ratios_result _ _ _ He) as (h' & Hset & _).
  rewrite Hset. now exists h'.
Qed.

(** X18. The constructor of [StockContainer] is all or nothing on signals:
    it returns when the frame of every given symbol has at least one entry
    signal, and the only way it fails is the [ZeroDivisionError] of a symbol
    whose frame has none - the container then still lists every given
    symbol. *)
Theorem container_init_all_or_nothing (symbols : list string)
    (w : StockContainer.World) :
  ((forall sym, In sym symbols ->
                signals_of (StockContainer.account w sym) <> []) ->
   exists sc w', StockContainer.init symbols w = Return (sc, w'))
  /\ (forall e sc w',
        StockContainer.init symbols w = Raised e (sc, w') ->
        e = division_by_zero
        /\ StockContainer.stocks sc = symbols
        /\ exists sym,
             In sym symbols
             /\ signals_of (StockContainer.account w sym) = []).
Proof.
  destruct (StockContainer.make_MACD_objects symbols w) as [objs w1] eqn:E.
  destruct (make_MACD_objects_spec _ _ _ _ E) as (_ & _ & Hacc & _ & Hall).
  destruct (forall2_objects _ _ _ _ Hall) as (Hsym & Hdata).
  assert (Hin : forall r, In r objs ->
             In (symbol (StockContainer.heap w1 r)) symbols).
  { intros r Hr. rewrite <- Hsym.
    now apply (in_map (fun r => symbol (StockContainer.heap w1 r))). }
  destruct (execute_cases (Backtester.init objs) (StockContainer.heap w1))
    as (Hret & Hraise & Hdiv).
  split.
  - intros Hall'. destruct Hret as (bt & He).
    { intros r Hr. cbn in Hr. rewrite (Hdata r Hr). apply Hall'.
      now apply Hin. }
    destruct (container_init_steps _ _ _ _ _ E He) as (h' & Hi).
    eauto.
  - intros e sc w' Hi.
    destruct (Backtester.execute (Backtester.init objs)
                (StockContainer.heap w1)) as [bt|e0 bt|] eqn:He.
    + destruct (container_init_steps _ _ _ _ _ E He) as (h' & Hi').
      rewrite Hi' in Hi. discriminate.
    + unfold StockContainer.init in Hi. rewrite E in Hi.
      unfold StockContainer.execute_backtester in Hi.
      cbn [StockContainer.backtester StockContainer.stocks] in Hi.
      rewrite He in Hi. injection Hi as <- <- <-.
      destruct (Hraise _ _ eq_refl) as (-> & _ & r & Hr & Hsig).
      repeat split. exists (symbol (StockContainer.heap w1 r)).
      cbn in Hr. split; [now apply Hin|]. now rewrite <- (Hdata r Hr).
    + contradiction.
Qed.

Lemma container_init_all_or_nothing_witness :
  (exists sc w',
     StockContainer.init ["AAPL"; "TSLA"]%string world_empty
     = Return (sc, w'))
  /\ exists sc w',
       StockContainer.init ["AAPL"; "MSFT"]%string world_empty
       = Raised division_by_zero (sc, w')
       /\ StockContainer.stocks sc = ["AAPL"; "MSFT"]%string.
Proof.
  split.
  - apply (proj1 (container_init_all_or_nothing ["AAPL"; "TSLA"]%string
                    world_empty)).
    intros sym [<-|[<-|[]]]; vm_compute; discriminate.
  - destruct (StockContainer.init ["AAPL"; "MSFT"]%string world_empty)
      as [[sc w']|e [sc w']|] eqn:E.
    + vm_compute in E. discriminate E.
    + destruct (proj2 (container_init_all_or_nothing
                         ["AAPL"; "MSFT"]%string world_empty) e sc w' E)
        as (-> & Hst & _).
      exists sc, w'. split; [reflexivity|exact Hst].
    + vm_compute in E. discriminate E.
Defined.



